(** * Atomo10 backend: stop-list mutations and ETA projection

    A shallow embedding of the request handlers of [main.py] (with the
    schemas of [schemas.py]) and the properties of the stop-list
    repository, the schedule store and the ETA projector.

    Python values are modelled as follows:
    - [int] as [Z] (unbounded);
    - [str] as [string], for text of code points below 256;
    - [float] by its IEEE-754 binary64 bit pattern (coordinates are only
      stored and copied by the handlers, never computed on);
    - [Optional[T]] and a possibly absent dict key as [option T];
    - a raised exception as the [Raise] branch of [result];
    - the MongoDB collection as a finite map from object ids to line
      documents, threaded explicitly through every handler. *)

From Stdlib Require Import ZArith String Ascii List Lia Bool.
From stdpp Require Import base option list gmap strings.

Open Scope Z_scope.

(** ** Exceptions and results *)

Inductive exn : Type :=
  | HTTPException (status_code : Z) (detail : string)
  | InvalidId          (* bson.errors.InvalidId *)
  | ValueError
  | OverflowError
  | IndexError
  | ValidationError.   (* pydantic request validation *)

Inductive result (A : Type) : Type :=
  | Ok (a : A)
  | Raise (e : exn).
Arguments Ok {A} a.
Arguments Raise {A} e.

Definition bind {A B} (r : result A) (k : A -> result B) : result B :=
  match r with
  | Ok a => k a
  | Raise e => Raise e
  end.

Notation "x <- r ;; k" := (bind r (fun x => k))
  (at level 100, r at next level, right associativity).

(** The error kinds of the specification, as the handlers raise them. *)
Definition NotFound : exn := HTTPException 404 "Line not found".
Definition InvalidIndex : exn := HTTPException 400 "Invalid stop index".
Definition InvalidLineId : exn := HTTPException 400 "Invalid line id".

(** ** Text: [int(str)], [str.split], two-digit rendering *)

Definition float64 : Type := N.

Definition chars (s : string) : list ascii := list_ascii_of_string s.

(** Characters [int] skips around a literal: the C white space 9-13 and
    32, and the two white-space code points above 127, 133 and 160, which
    [int] turns into spaces before it parses. The separators 28-31 are
    not skipped. *)
Definition is_space (c : ascii) : bool :=
  let n := nat_of_ascii c in
  ((9 <=? n) && (n <=? 13) || (n =? 32) || (n =? 133) || (n =? 160))%nat.

Definition digit_val (c : ascii) : option Z :=
  let n := nat_of_ascii c in
  if ((48 <=? n) && (n <=? 57))%nat then Some (Z.of_nat n - 48) else None.

Fixpoint lstrip (l : list ascii) : list ascii :=
  match l with
  | [] => []
  | c :: r => if is_space c then lstrip r else l
  end.

Definition strip (l : list ascii) : list ascii :=
  rev (lstrip (rev (lstrip l))).

(** Decimal digits with single underscores allowed between digits;
    [prev] tells whether the previous character was a digit. *)
Fixpoint digits_val (prev : bool) (acc : Z) (l : list ascii) : option Z :=
  match l with
  | [] => if prev then Some acc else None
  | c :: r =>
      if Ascii.eqb c "_" then
        if prev then digits_val false acc r else None
      else
        match digit_val c with
        | Some d => digits_val true (10 * acc + d) r
        | None => None
        end
  end.

(** The number of decimal digits of a literal, underscores apart. *)
Definition count_digits (l : list ascii) : nat :=
  length (filter (fun c => is_Some (digit_val c)) l).

(** [sys.int_max_str_digits]: a literal of more digits is refused. *)
Definition MAX_STR_DIGITS : nat := 4300.

(** [int(text)]: surrounding white space, an optional sign, decimal
    digits, no more than [MAX_STR_DIGITS] of them. Anything else raises
    [ValueError]. *)
Definition py_int (l : list ascii) : result Z :=
  let body := strip l in
  let signed :=
    match body with
    | c :: r =>
        if Ascii.eqb c "-" then (true, r)
        else if Ascii.eqb c "+" then (false, r)
        else (false, body)
    | [] => (false, [])
    end in
  match digits_val false 0 (snd signed) with
  | Some v =>
      if (count_digits (snd signed) <=? MAX_STR_DIGITS)%nat
      then Ok (if fst signed then - v else v)
      else Raise ValueError
  | None => Raise ValueError
  end.

(** [text.split(sep)] for a one-character separator; [cur] is the part
    being read, in reverse. *)
Fixpoint split_on (sep : ascii) (cur : list ascii) (l : list ascii)
  : list (list ascii) :=
  match l with
  | [] => [rev cur]
  | c :: r =>
      if Ascii.eqb c sep then rev cur :: split_on sep [] r
      else split_on sep (c :: cur) r
  end.

Definition split (sep : ascii) (s : string) : list (list ascii) :=
  split_on sep [] (chars s).

Definition digit_char (d : Z) : ascii := ascii_of_nat (48 + Z.to_nat d).

(** [%H] and [%M] of [strftime]: two digits, zero padded. *)
Definition two_digits (n : Z) : string :=
  String (digit_char (n / 10)) (String (digit_char (n mod 10)) EmptyString).

(** ** Object ids

    [bson.ObjectId(text)] takes a string of 24 characters and reads it
    with [bytes.fromhex], which skips white space between the bytes; any
    other string raises [InvalidId]. A string of 24 hexadecimal digits
    gives the twelve bytes of an id a stored document can have; a string
    with white space gives fewer bytes, an id that no document has. *)

Definition hex_val (c : ascii) : option N :=
  let n := nat_of_ascii c in
  if ((48 <=? n) && (n <=? 57))%nat then Some (N.of_nat (n - 48))
  else if ((97 <=? n) && (n <=? 102))%nat then Some (N.of_nat (n - 87))
  else if ((65 <=? n) && (n <=? 70))%nat then Some (N.of_nat (n - 55))
  else None.

Fixpoint hex_value (acc : N) (l : list ascii) : option N :=
  match l with
  | [] => Some acc
  | c :: r =>
      match hex_val c with
      | Some d => hex_value (16 * acc + d)%N r
      | None => None
      end
  end.

(** White space for [bytes.fromhex]: code points 9-13 and 32. *)
Definition is_hex_space (c : ascii) : bool :=
  let n := nat_of_ascii c in
  ((9 <=? n) && (n <=? 13) || (n =? 32))%nat.

(** [bytes.fromhex(text)]: two hexadecimal digits per byte, white space
    allowed before each byte and at the end. [top] is the first digit of
    the byte being read, if any. *)
Fixpoint fromhex_from (top : option N) (l : list ascii) : option (list N) :=
  match l with
  | [] =>
      match top with
      | None => Some []
      | Some _ => None
      end
  | c :: r =>
      match top with
      | None =>
          if is_hex_space c then fromhex_from None r
          else
            match hex_val c with
            | Some t => fromhex_from (Some t) r
            | None => None
            end
      | Some t =>
          match hex_val c with
          | Some b =>
              match fromhex_from None r with
              | Some bytes => Some ((16 * t + b)%N :: bytes)
              | None => None
              end
          | None => None
          end
      end
  end.

Definition fromhex (l : list ascii) : option (list N) := fromhex_from None l.

(** [bson.ObjectId(line_id)]: the bytes of the id, [None] when it raises
    [InvalidId]. *)
Definition bson_ObjectId (line_id : string) : option (list N) :=
  if (String.length line_id =? 24)%nat then fromhex (chars line_id)
  else None.

(** The number a string of bytes spells, most significant byte first. *)
Definition bytes_value (bytes : list N) : N :=
  foldl (fun acc b => 256 * acc + b)%N 0%N bytes.

(** The key of the collection that [ObjectId(line_id)] names: the value
    of its twelve bytes when [line_id] is 24 hexadecimal digits, and no
    key otherwise (lemma [ObjectId_twelve_bytes] below). *)
Definition ObjectId (line_id : string) : option N :=
  if (String.length line_id =? 24)%nat then hex_value 0%N (chars line_id)
  else None.

(** What a handler does with a line id that names no key: [unmatched]
    when [bson.ObjectId] builds an id all the same, one of fewer than
    twelve bytes that its query matches with no document, and [invalid]
    when [bson.ObjectId] raises [InvalidId]. *)
Definition no_key {A} (line_id : string) (unmatched invalid : A) : A :=
  match bson_ObjectId line_id with
  | Some _ => unmatched
  | None => invalid
  end.


(** ** Schemas ([schemas.py]) and request models ([main.py])

    A request body is a JSON object whose members may be absent; the
    pydantic model validates it before the handler runs. Only the
    constraints the models declare are modelled ([ge] on an integer field
    and required members); type coercion is not. *)

(** [Field(default, ge=bound)] on an integer member. *)
Definition Field (default : Z) (ge : option Z) (v : option Z) : result Z :=
  match v with
  | None => Ok default
  | Some n =>
      match ge with
      | Some bound => if bound <=? n then Ok n else Raise ValidationError
      | None => Ok n
      end
  end.

(** A required member. *)
Definition required {A} (v : option A) : result A :=
  match v with
  | Some a => Ok a
  | None => Raise ValidationError
  end.

(** A stop as stored in a line document: a dict with at most these five
    keys; [None] is an absent key (or a stored null for the optional
    members). *)
Module Stop.
Record t : Type := mk {
  id : option string;
  name : option string;
  lat : option float64;
  lng : option float64;
  travel_minutes_from_prev : option Z
}.

(** [class Stop(BaseModel)]: [name] is required and
    [travel_minutes_from_prev] is [Field(0, ge=0)]. *)
Definition validate (body : t) : result t :=
  n <- required (name body) ;;
  m <- Field 0 (Some 0) (travel_minutes_from_prev body) ;;
  Ok (mk (id body) (Some n) (lat body) (lng body) (Some m)).
End Stop.

Module StopInput.
Record t : Type := mk {
  name : string;
  lat : option float64;
  lng : option float64;
  travel_minutes_from_prev : Z
}.

(** [class StopInput(BaseModel)]: [name] is required and
    [travel_minutes_from_prev: int = 0] carries no constraint. *)
Definition validate (body : Stop.t) : result t :=
  n <- required (Stop.name body) ;;
  m <- Field 0 None (Stop.travel_minutes_from_prev body) ;;
  Ok (mk n (Stop.lat body) (Stop.lng body) m).

(** [stop.model_dump()]: the four declared members, as a dict. *)
Definition model_dump (s : t) : Stop.t :=
  Stop.mk None (Some (name s)) (lat s) (lng s)
          (Some (travel_minutes_from_prev s)).
End StopInput.

Module StopPatch.
Record t : Type := mk {
  index : Z;
  name : option string;
  lat : option float64;
  lng : option float64;
  travel_minutes_from_prev : option Z
}.
End StopPatch.

Module StopDelete.
Record t : Type := mk { index : Z }.
End StopDelete.

Module SchedulePayload.
Record t : Type := mk { schedules : list string }.
End SchedulePayload.

(** A line document. Every handler reads the two lists with
    [doc.get(key, [])], so an absent list is the empty list. *)
Module Line.
Record t : Type := mk {
  name : string;
  description : option string;
  color : option string;
  stops : list Stop.t;
  schedules : list string;
  locale : option string
}.

Definition set_stops (l : list Stop.t) (d : t) : t :=
  mk (name d) (description d) (color d) l (schedules d) (locale d).

Definition set_schedules (l : list string) (d : t) : t :=
  mk (name d) (description d) (color d) (stops d) l (locale d).

Definition push_stop (s : Stop.t) (d : t) : t :=
  set_stops (stops d ++ [s]) d.
End Line.

(** The body of every successful mutation: [{"ok": True}]. *)
Record OkResponse : Type := { ok : bool }.
Definition ok_true : OkResponse := {| ok := true |}.

(** ** The document store

    The collection of line documents, keyed by object id. A document read
    from it is a fresh copy, so a handler changes the store only through
    [update_one]. *)

Abbreviation store := (gmap N Line.t).

(** Modelled from the spec: [database.db] is absent from the sources; the
    document-store collaborator provides [findOne(id)] over a collection
    keyed by an opaque identifier. *)
Definition find_one (db : store) (oid : N) : option Line.t := db !! oid.

(** Modelled from the spec: [database.db] is absent from the sources; the
    collaborator's [updateOne(id, update)] applies the update to the
    matching document and reports whether a matching document existed
    ([matched_count]). *)
Definition update_one (db : store) (oid : N) (update : Line.t -> Line.t)
  : store * Z :=
  match db !! oid with
  | Some doc => (<[oid := update doc]> db, 1)
  | None => (db, 0)
  end.

(** ** Naive date-times

    A [datetime] is a proleptic Gregorian day number ([toordinal]) and a
    time of day. Only the operations [compute_eta] uses are modelled. *)
Module datetime.
Record t : Type := mk {
  ordinal : Z;
  hour : Z;
  minute : Z;
  second : Z;
  microsecond : Z
}.

(** [datetime.max.toordinal()], the day number of 9999-12-31. *)
Definition MAXORDINAL : Z := 3652059.

Definition fits_c_int (n : Z) : bool :=
  (- 2147483648 <=? n) && (n <=? 2147483647).

(** [dt.replace(hour=hh, minute=mm, second=0, microsecond=0)]. The
    arguments are converted to C ints ([OverflowError]) and then range
    checked ([ValueError]). *)
Definition replace (dt : t) (hh mm : Z) : result t :=
  if negb (fits_c_int hh && fits_c_int mm) then Raise OverflowError
  else if (0 <=? hh) && (hh <=? 23) && (0 <=? mm) && (mm <=? 59)
  then Ok (mk (ordinal dt) hh mm 0 0)
  else Raise ValueError.

(** [dt + timedelta(minutes=m)]: the day number moves by whole days
    (floor division, so a negative offset borrows from the day) and
    must stay within [1, MAXORDINAL]; a [timedelta] too large to build
    is out of that range as well. *)
Definition add_minutes (dt : t) (m : Z) : result t :=
  let total := 60 * hour dt + minute dt + m in
  let day := ordinal dt + total / 1440 in
  let rest := total mod 1440 in
  if (1 <=? day) && (day <=? MAXORDINAL)
  then Ok (mk day (rest / 60) (rest mod 60) (second dt) (microsecond dt))
  else Raise OverflowError.

(** [dt.strftime("%H:%M")]. *)
Definition strftime_HM (dt : t) : string :=
  two_digits (hour dt) +:+ ":" +:+ two_digits (minute dt).

(** [datetime.strptime(text, "%H:%M")]: the format compiles to the
    pattern [(2[0-3]|[0-1]\d|\d):([0-5]\d|\d)], which must match the
    whole text; the result carries the default date 1900-01-01, of
    which only the time of day is used. *)
Definition hour_field (l : list ascii) : option Z :=
  match l with
  | [a] => digit_val a
  | [a; b] =>
      match digit_val a, digit_val b with
      | Some x, Some y => if 10 * x + y <=? 23 then Some (10 * x + y) else None
      | _, _ => None
      end
  | _ => None
  end.

Definition minute_field (l : list ascii) : option Z :=
  match l with
  | [a] => digit_val a
  | [a; b] =>
      match digit_val a, digit_val b with
      | Some x, Some y => if x <=? 5 then Some (10 * x + y) else None
      | _, _ => None
      end
  | _ => None
  end.

Definition strptime_HM (text : string) : result (Z * Z) :=
  match split ":" text with
  | [h; m] =>
      match hour_field h, minute_field m with
      | Some hh, Some mm => Ok (hh, mm)
      | _, _ => Raise ValueError
      end
  | _ => Raise ValueError
  end.

(** [datetime.combine(today.date(), time)]. *)
Definition combine (today : t) (time : Z * Z) : t :=
  mk (ordinal today) (fst time) (snd time) 0 0.
End datetime.

(** ** Stop-list repository and schedule store ([main.py])

    Every handler takes the store and returns its response (or the
    exception it raises) together with the store it leaves behind. *)

(** [add_stop]: the [try] block turns [InvalidId] into a 400; an update
    that matched nothing is a 404. *)
Definition add_stop (db : store) (line_id : string) (stop : StopInput.t)
  : result OkResponse * store :=
  match ObjectId line_id with
  | None => no_key line_id (Raise NotFound, db) (Raise InvalidLineId, db)
  | Some oid =>
      let '(db', matched_count) :=
        update_one db oid (Line.push_stop (StopInput.model_dump stop)) in
      if matched_count =? 0 then (Raise NotFound, db')
      else (Ok ok_true, db')
  end.

(** The route [POST /api/lines/{line_id}/stops]: the body is validated
    as a [StopInput] before [add_stop] runs. *)
Definition post_stop (db : store) (line_id : string) (body : Stop.t)
  : result OkResponse * store :=
  match StopInput.validate body with
  | Raise e => (Raise e, db)
  | Ok stop => add_stop db line_id stop
  end.

(** The loop [for k in [...]: v = getattr(patch, k); if v is not None:
    stop[k] = v], one key after the other. *)
Definition setitem {A} (v : option A) (old : option A) : option A :=
  match v with
  | Some a => Some a
  | None => old
  end.

Definition apply_patch (patch : StopPatch.t) (stop : Stop.t) : Stop.t :=
  let stop :=
    Stop.mk (Stop.id stop) (setitem (StopPatch.name patch) (Stop.name stop))
            (Stop.lat stop) (Stop.lng stop)
            (Stop.travel_minutes_from_prev stop) in
  let stop :=
    Stop.mk (Stop.id stop) (Stop.name stop)
            (setitem (StopPatch.lat patch) (Stop.lat stop)) (Stop.lng stop)
            (Stop.travel_minutes_from_prev stop) in
  let stop :=
    Stop.mk (Stop.id stop) (Stop.name stop) (Stop.lat stop)
            (setitem (StopPatch.lng patch) (Stop.lng stop))
            (Stop.travel_minutes_from_prev stop) in
  Stop.mk (Stop.id stop) (Stop.name stop) (Stop.lat stop) (Stop.lng stop)
          (setitem (StopPatch.travel_minutes_from_prev patch)
                   (Stop.travel_minutes_from_prev stop)).

(** [edit_stop]: no [try] block here, so [InvalidId] escapes; a query
    that finds nothing is a 404. *)
Definition edit_stop (db : store) (line_id : string) (patch : StopPatch.t)
  : result OkResponse * store :=
  match ObjectId line_id with
  | None => no_key line_id (Raise NotFound, db) (Raise InvalidId, db)
  | Some oid =>
      match find_one db oid with
      | None => (Raise NotFound, db)
      | Some doc =>
          let stops := Line.stops doc in
          let index := StopPatch.index patch in
          if (index <? 0) || (Z.of_nat (length stops) <=? index)
          then (Raise InvalidIndex, db)
          else
            match stops !! Z.to_nat index with
            | None => (Raise IndexError, db)
            | Some stop =>
                let stop := apply_patch patch stop in
                let stops := <[Z.to_nat index := stop]> stops in
                (Ok ok_true, fst (update_one db oid (Line.set_stops stops)))
            end
      end
  end.

(** [delete_stop]: [stops.pop(index)] after the bounds check. *)
Definition delete_stop (db : store) (line_id : string) (payload : StopDelete.t)
  : result OkResponse * store :=
  match ObjectId line_id with
  | None => no_key line_id (Raise NotFound, db) (Raise InvalidId, db)
  | Some oid =>
      match find_one db oid with
      | None => (Raise NotFound, db)
      | Some doc =>
          let stops := Line.stops doc in
          let index := StopDelete.index payload in
          if (index <? 0) || (Z.of_nat (length stops) <=? index)
          then (Raise InvalidIndex, db)
          else
            let stops := delete (Z.to_nat index) stops in
            (Ok ok_true, fst (update_one db oid (Line.set_stops stops)))
      end
  end.

(** [set_schedules]: the update's [matched_count] is not looked at. *)
Definition set_schedules (db : store) (line_id : string)
    (payload : SchedulePayload.t) : result OkResponse * store :=
  match ObjectId line_id with
  | None => no_key line_id (Ok ok_true, db) (Raise InvalidLineId, db)
  | Some oid =>
      let db' :=
        fst (update_one db oid
               (Line.set_schedules (SchedulePayload.schedules payload))) in
      (Ok ok_true, db')
  end.

(** ** ETA projector ([compute_eta]) *)

Record Eta : Type := { stop : option string; arrivals : list string }.

Record EtaResponse : Type := { etas : list Eta }.

(** [hh, mm = map(int, dep.split(":"))]: anything but two integer
    literals raises [ValueError]. *)
Definition parse_dep (dep : string) : result (Z * Z) :=
  match split ":" dep with
  | [h; m] =>
      hh <- py_int h ;;
      mm <- py_int m ;;
      Ok (hh, mm)
  | _ => Raise ValueError
  end.

(** The body of the inner loop, for one schedule entry. *)
Definition arrival (base_time : datetime.t) (cumulative : Z) (dep : string)
  : result string :=
  hm <- parse_dep dep ;;
  departure_dt <- datetime.replace base_time (fst hm) (snd hm) ;;
  arrival_dt <- datetime.add_minutes departure_dt cumulative ;;
  Ok (datetime.strftime_HM arrival_dt).

(** [for dep in schedules: ... arrivals.append(...)]. *)
Fixpoint arrivals_loop (base_time : datetime.t) (cumulative : Z)
    (schedules : list string) : result (list string) :=
  match schedules with
  | [] => Ok []
  | dep :: rest =>
      a <- arrival base_time cumulative dep ;;
      r <- arrivals_loop base_time cumulative rest ;;
      Ok (a :: r)
  end.

(** [int(s.get("travel_minutes_from_prev", 0))]. *)
Definition travel_minutes (s : Stop.t) : Z :=
  default 0 (Stop.travel_minutes_from_prev s).

(** The value of [cumulative] after the update at the head of the loop
    body, at index [i]. *)
Definition step_cumulative (i : nat) (cumulative : Z) (s : Stop.t) : Z :=
  if (i =? 0)%nat then 0 else cumulative + travel_minutes s.

(** [for i, s in enumerate(stops): ...], from index [i] on with the
    running total [cumulative]. *)
Fixpoint stops_loop (base_time : datetime.t) (schedules : list string)
    (i : nat) (cumulative : Z) (stops : list Stop.t) : result (list Eta) :=
  match stops with
  | [] => Ok []
  | s :: rest =>
      let cumulative := step_cumulative i cumulative s in
      arrivals <- arrivals_loop base_time cumulative schedules ;;
      etas <- stops_loop base_time schedules (S i) cumulative rest ;;
      Ok ({| stop := Stop.name s; arrivals := arrivals |} :: etas)
  end.

(** The successive values of [cumulative] in that loop, one per stop. *)
Fixpoint cumulative_trace (i : nat) (cumulative : Z) (stops : list Stop.t)
  : list Z :=
  match stops with
  | [] => []
  | s :: rest =>
      let cumulative := step_cumulative i cumulative s in
      cumulative :: cumulative_trace (S i) cumulative rest
  end.

(** [base_time]: [now] parsed onto today's date when it is a non-empty
    string, the clock reading otherwise. [clock] is what
    [datetime.today()] and [datetime.now()] return. *)
Definition resolve_base_time (clock : datetime.t) (now : option string)
  : result datetime.t :=
  match now with
  | None => Ok clock
  | Some text =>
      if (String.length text =? 0)%nat then Ok clock
      else
        time <- datetime.strptime_HM text ;;
        Ok (datetime.combine clock time)
  end.

(** [etas[from_stop_index:]] under the guard of the source. *)
Definition focus (from_stop_index : Z) (l : list Eta) : list Eta :=
  if (0 <=? from_stop_index) && (from_stop_index <? Z.of_nat (length l))
  then drop (Z.to_nat from_stop_index) l
  else l.

Definition compute_eta (clock : datetime.t) (db : store) (line_id : string)
    (from_stop_index : Z) (now : option string) : result EtaResponse :=
  match ObjectId line_id with
  | None => no_key line_id (Raise NotFound) (Raise InvalidId)
  | Some oid =>
      match find_one db oid with
      | None => Raise NotFound
      | Some doc =>
          let stops := Line.stops doc in
          let schedules := Line.schedules doc in
          match schedules with
          | [] => Ok {| etas := [] |}
          | _ :: _ =>
              base_time <- resolve_base_time clock now ;;
              l <- stops_loop base_time schedules 0 0 stops ;;
              Ok {| etas := focus from_stop_index l |}
          end
      end
  end.

(** ** Reading a line ([get_line], [_to_public]) *)

(** [str(oid)] for an object id: its twelve bytes as 24 lower-case
    hexadecimal digits. *)
Definition hex_char (d : N) : ascii :=
  if (d <? 10)%N then ascii_of_N (48 + d) else ascii_of_N (87 + d).

Fixpoint hex_digits (n : nat) (v : N) (acc : list ascii) : list ascii :=
  match n with
  | O => acc
  | S n' => hex_digits n' (v / 16)%N (hex_char (v mod 16)%N :: acc)
  end.

Definition ObjectId_str (oid : N) : string :=
  string_of_list_ascii (hex_digits 24 oid []).

(** The public form of a document: the members of the line and, in place
    of [_id], the member [id] holding the object id as a string. *)
Module PublicLine.
Record t : Type := mk {
  id : string;
  line : Line.t
}.
End PublicLine.

(** [_to_public(doc)] on a document read from the collection, which
    always carries its [_id]: the copy [d] loses [_id] and gains
    [d["id"] = str(_id)]. *)
Definition _to_public (oid : N) (doc : Line.t) : PublicLine.t :=
  PublicLine.mk (ObjectId_str oid) doc.

(** [get_line]: [InvalidId] is a 400, an id that matches nothing a
    404. *)
Definition get_line (db : store) (line_id : string) : result PublicLine.t :=
  match ObjectId line_id with
  | None => no_key line_id (Raise NotFound) (Raise InvalidLineId)
  | Some oid =>
      match find_one db oid with
      | None => Raise NotFound
      | Some doc => Ok (_to_public oid doc)
      end
  end.

(** ** The [Line] schema ([schemas.py])

    The body of a line as a JSON object: [None] is an absent member; for
    the two optional members with a default, [Some None] is an explicit
    null. *)
Module LineSchema.
Record body : Type := mk {
  name : option string;
  description : option string;
  color : option (option string);
  stops : option (list Stop.t);
  schedules : option (list string);
  locale : option (option string)
}.

(** [stops: List[Stop]]: every element is validated as a [Stop]. *)
Fixpoint validate_stops (l : list Stop.t) : result (list Stop.t) :=
  match l with
  | [] => Ok []
  | s :: rest =>
      s' <- Stop.validate s ;;
      rest' <- validate_stops rest ;;
      Ok (s' :: rest')
  end.

(** [class Line(BaseModel)]: [name] is required, the lists default to
    empty, [color] defaults to "#2563eb" and [locale] to "it". *)
Definition validate (b : body) : result Line.t :=
  n <- required (name b) ;;
  ss <- validate_stops (default [] (stops b)) ;;
  Ok (Line.mk n (description b)
              (default (Some "#2563eb"%string) (color b))
              ss
              (default [] (schedules b))
              (default (Some "it"%string) (locale b))).
End LineSchema.

(** ** Vocabulary of the properties *)

(** The sum of [travel_minutes_from_prev] over a run of stops. *)
Definition sum_minutes (l : list Stop.t) : Z :=
  foldr (fun s acc => travel_minutes s + acc) 0 l.

(** Following the specification: the cumulative travel time of the stop
    at index [k] is the sum of [travel_minutes_from_prev] over the stops
    at indices 1 to [k], so it is 0 at index 0 and the first stop's own
    value is never part of it. *)
Definition prefix_offset (stops : list Stop.t) (k : nat) : Z :=
  sum_minutes (take k (drop 1 stops)).

(** Following the specification: one projection entry per stop, the stop
    at index [k] being given the cumulative offset [offset k]; [k] is the
    index of the first stop of [stops]. *)
Fixpoint entries_at (base_time : datetime.t) (schedules : list string)
    (offset : nat -> Z) (k : nat) (stops : list Stop.t)
  : result (list Eta) :=
  match stops with
  | [] => Ok []
  | s :: rest =>
      arrivals <- arrivals_loop base_time (offset k) schedules ;;
      etas <- entries_at base_time schedules offset (S k) rest ;;
      Ok ({| stop := Stop.name s; arrivals := arrivals |} :: etas)
  end.

(** A minute of the day, rendered as [HH:MM]. *)
Definition render_minutes (m : Z) : string :=
  two_digits (m / 60) +:+ ":" +:+ two_digits (m mod 60).

(** The rendering of minute [t] is read back as its hour and minute. *)
Definition reads_back (t : Z) : bool :=
  match parse_dep (render_minutes t) with
  | Ok (hh, mm) => (hh =? t / 60) && (mm =? t mod 60)
  | Raise _ => false
  end.

(** A date [datetime] can represent: 0001-01-01 to 9999-12-31. *)
Definition valid_date (dt : datetime.t) : Prop :=
  1 <= datetime.ordinal dt <= datetime.MAXORDINAL.

(** A schedule entry that reads as an hour and a minute of the day. *)
Definition well_formed_dep (dep : string) : Prop :=
  exists hh mm,
    parse_dep dep = Ok (hh, mm) /\ 0 <= hh <= 23 /\ 0 <= mm <= 59.

(** An offset of [c] minutes from any time of the day [dt] stays within
    the dates a [datetime] can represent. *)
Definition keeps_date (dt : datetime.t) (c : Z) : Prop :=
  1 <= datetime.ordinal dt + c / 1440
  /\ datetime.ordinal dt + c / 1440 + 1 <= datetime.MAXORDINAL.

(** The index of the stop the first entry of a projection stands for. *)
Definition first_stop (from_stop_index : Z) (stops : list Stop.t) : nat :=
  if (0 <=? from_stop_index) && (from_stop_index <? Z.of_nat (length stops))
  then Z.to_nat from_stop_index
  else 0%nat.

(** The line id names a stored line. *)
Definition resolves (db : store) (line_id : string) : Prop :=
  exists oid doc, ObjectId line_id = Some oid /\ db !! oid = Some doc.

(** The members of a line other than its stop list are the same. *)
Definition same_but_stops (d d' : Line.t) : Prop :=
  Line.name d' = Line.name d
  /\ Line.description d' = Line.description d
  /\ Line.color d' = Line.color d
  /\ Line.schedules d' = Line.schedules d
  /\ Line.locale d' = Line.locale d.

(** A member after a patch: the given value when the patch has one, the
    old value otherwise. *)
Definition overwritten {A} (given old new : option A) : Prop :=
  (forall v, given = Some v -> new = Some v)
  /\ (given = None -> new = old).

(** The exceptions the projection itself can raise. *)
Definition projection_error (e : exn) : Prop :=
  e = ValueError \/ e = OverflowError.

(** [now] is omitted, empty, or a string [strptime] accepts. *)
Definition valid_now (now : option string) : bool :=
  match now with
  | None => true
  | Some text =>
      (String.length text =? 0)%nat
      || match datetime.strptime_HM text with
         | Ok _ => true
         | Raise _ => false
         end
  end.

(** Two outcomes that are equal unless one of them is a date overflow. *)
Definition same_unless_overflow {A} (r1 r2 : result A) : Prop :=
  r1 = r2 \/ r1 = Raise OverflowError \/ r2 = Raise OverflowError.

(** ** Example data *)

(** The line of the specification's example: stops A(0), B(5), C(4) and
    departures 07:30 and 08:00, stored under the id [example_id]. *)
Definition example_stop (name : string) (minutes : Z) : Stop.t :=
  Stop.mk None (Some name) None None (Some minutes).

Definition example_line : Line.t :=
  Line.mk "Linea 10" None (Some "#2563eb")
          [example_stop "A" 0; example_stop "B" 5; example_stop "C" 4]
          ["07:30"; "08:00"]%string (Some "it"%string).

Definition example_id : string := "000000000000000000000001".

Definition example_db : store := {[ 1%N := example_line ]}.

Definition example_projection : EtaResponse :=
  {| etas :=
       [ {| stop := Some "A"%string; arrivals := ["07:30"; "08:00"]%string |};
         {| stop := Some "B"%string; arrivals := ["07:35"; "08:05"]%string |};
         {| stop := Some "C"%string; arrivals := ["07:39"; "08:09"]%string |} ]
  |}.

(** Two clock readings on different days. *)
Definition example_clock : datetime.t := datetime.mk 739925 13 45 12 999.

Definition another_clock : datetime.t := datetime.mk 738000 23 59 59 0.

(** A well-formed id that names no line of [example_db], and a string
    that is not an object id. *)
Definition unknown_id : string := "000000000000000000000002".

Definition malformed_id : string := "not-an-object-id".

(** A string of 24 characters that [bson.ObjectId] accepts although it
    is not 24 hexadecimal digits: it spells ten bytes. *)
Definition spaced_id : string := "0000 0000 0000 0000 0001".

(** Stops whose first one stores a non-zero travel time and whose third
    one stores none. *)
Definition detour_stops : list Stop.t :=
  [ Stop.mk None (Some "Capolinea"%string) None None (Some 9);
    Stop.mk None (Some "Centro"%string) None None (Some 5);
    Stop.mk None (Some "Stazione"%string) None None None;
    Stop.mk None (Some "Ospedale"%string) None None (Some 6) ].

(** The example line with those stops, and a store holding it. *)
Definition detour_line : Line.t := Line.set_stops detour_stops example_line.

Definition detour_db : store := {[ 1%N := detour_line ]}.

(** The example line without departures. *)
Definition idle_line : Line.t :=
  Line.set_schedules [] example_line.

Definition rename_centro : StopPatch.t :=
  StopPatch.mk 1 (Some "Centro"%string) None None (Some 7).

Definition patch_out_of_range : StopPatch.t :=
  StopPatch.mk 5 (Some "Centro"%string) None None None.

Definition morning : SchedulePayload.t :=
  SchedulePayload.mk ["09:00"; "09:30"]%string.

(** A line whose second stop lies 2912134 days of travel away: from
    [example_clock] its 07:30 arrival falls on 9999-12-31. *)
Definition far_line : Line.t :=
  Line.mk "Lunga" None None
          [example_stop "A" 0; example_stop "Z" (2912134 * 1440)]
          ["07:30"]%string None.

Definition next_day_clock : datetime.t := datetime.mk 739926 0 0 0 0.

(** A request body with a negative travel time. *)
Definition negative_stop : Stop.t :=
  Stop.mk None (Some "D"%string) None None (Some (-5)).

(** The arrival strings of an outcome, stop by stop, without the stop
    names. *)
Definition arrival_table (r : result EtaResponse)
  : result (list (list string)) :=
  match r with
  | Ok resp => Ok (map arrivals (etas resp))
  | Raise e => Raise e
  end.

(** The example store with a second line. *)
Definition two_line_db : store := <[ 2%N := idle_line ]> example_db.

(** A line whose second departure does not read as a time. *)
Definition garbled_line : Line.t :=
  Line.set_schedules ["07:30"; "soon"]%string example_line.

(** A line with departures and no stop. *)
Definition stopless_line : Line.t :=
  Line.set_stops [] garbled_line.

(** * Properties *)

(** ** Shared facts *)

Ltac bool_to_prop :=
  repeat match goal with
         | H : _ && _ = true |- _ => apply andb_true_iff in H as [? ?]
         | H : _ || _ = true |- _ => apply orb_true_iff in H as [?|?]
         | H : _ && _ = false |- _ => apply andb_false_iff in H as [?|?]
         | H : _ || _ = false |- _ => apply orb_false_iff in H as [? ?]
         | H : (_ <=? _)%nat = true |- _ => apply Nat.leb_le in H
         | H : (_ <=? _)%nat = false |- _ => apply Nat.leb_gt in H
         | H : (_ =? _)%nat = true |- _ => apply Nat.eqb_eq in H
         | H : (_ =? _)%nat = false |- _ => apply Nat.eqb_neq in H
         end.

(** A hexadecimal digit is not white space. *)
Lemma hex_digit_not_space (c : ascii) (d : N) :
  hex_val c = Some d -> is_hex_space c = false.
Proof.
  unfold hex_val, is_hex_space. generalize (nat_of_ascii c). intros n.
  destruct ((9 <=? n)%nat && (n <=? 13)%nat || (n =? 32)%nat) eqn:S;
    [|reflexivity].
  destruct ((48 <=? n)%nat && (n <=? 57)%nat) eqn:E1;
    [bool_to_prop; lia|].
  destruct ((97 <=? n)%nat && (n <=? 102)%nat) eqn:E2;
    [bool_to_prop; lia|].
  destruct ((65 <=? n)%nat && (n <=? 70)%nat) eqn:E3;
    [bool_to_prop; lia|].
  discriminate.
Qed.

(** [bytes.fromhex] uses at least two characters per byte. *)
Lemma fromhex_from_length (l : list ascii) :
  forall top bytes,
    fromhex_from top l = Some bytes ->
    (2 * length bytes
     <= length l + match top with Some _ => 1 | None => 0 end)%nat.
Proof.
  induction l as [|c r IH]; intros top bytes H; simpl in H.
  - destruct top; [discriminate|]. injection H as <-. simpl. lia.
  - destruct top as [t|].
    + destruct (hex_val c) as [b|]; [|discriminate].
      destruct (fromhex_from None r) as [tl|] eqn:E; [|discriminate].
      injection H as <-. apply IH in E. simpl in *. lia.
    + destruct (is_hex_space c).
      * apply IH in H. simpl in *. lia.
      * destruct (hex_val c) as [t|]; [|discriminate].
        apply IH in H. simpl in *. lia.
Qed.

(** On hexadecimal digits alone [bytes.fromhex] reads the number that
    [hex_value] reads, byte by byte. *)
Lemma fromhex_from_digits (l : list ascii) :
  forall acc v,
    (Nat.even (length l) = true ->
     hex_value acc l = Some v ->
     exists bytes,
       fromhex_from None l = Some bytes
       /\ length l = (2 * length bytes)%nat
       /\ foldl (fun a b => 256 * a + b)%N acc bytes = v)
    /\ (forall t,
          Nat.even (length l) = false ->
          hex_value (16 * acc + t)%N l = Some v ->
          exists bytes,
            fromhex_from (Some t) l = Some bytes
            /\ S (length l) = (2 * length bytes)%nat
            /\ foldl (fun a b => 256 * a + b)%N acc bytes = v).
Proof.
  induction l as [|c r IH]; intros acc v; split.
  - intros _ [= <-]. exists []. repeat split.
  - intros t H. discriminate.
  - intros Hev H. simpl in H.
    destruct (hex_val c) as [d|] eqn:Hd; [|discriminate].
    assert (Hodd : Nat.even (length r) = false).
    { change (length (c :: r)) with (S (length r)) in Hev.
      rewrite Nat.even_succ in Hev. rewrite <- Nat.negb_odd, Hev.
      reflexivity. }
    destruct (proj2 (IH acc v) d Hodd H) as (bs & Hf & Hlen & Hv).
    exists bs. simpl.
    rewrite (hex_digit_not_space _ _ Hd), Hd. repeat split; assumption.
  - intros t Hev H. simpl in H.
    destruct (hex_val c) as [b|] eqn:Hb; [|discriminate].
    assert (Heven : Nat.even (length r) = true).
    { change (length (c :: r)) with (S (length r)) in Hev.
      rewrite Nat.even_succ, <- Nat.negb_even in Hev.
      now destruct (Nat.even (length r)). }
    destruct (proj1 (IH (256 * acc + (16 * t + b))%N v) Heven)
      as (bs & Hf & Hlen & Hv).
    { rewrite <- H. f_equal. lia. }
    exists ((16 * t + b)%N :: bs). simpl. rewrite Hb, Hf.
    repeat split; [lia | exact Hv].
Qed.

(** Conversely, when [bytes.fromhex] gets a byte out of every two
    characters it has skipped nothing, and [hex_value] reads the same
    number. *)
Lemma fromhex_from_tight (l : list ascii) :
  forall acc bytes,
    (fromhex_from None l = Some bytes ->
     length l = (2 * length bytes)%nat ->
     hex_value acc l
     = Some (foldl (fun a b => 256 * a + b)%N acc bytes))
    /\ (forall t,
          fromhex_from (Some t) l = Some bytes ->
          S (length l) = (2 * length bytes)%nat ->
          hex_value (16 * acc + t)%N l
          = Some (foldl (fun a b => 256 * a + b)%N acc bytes)).
Proof.
  induction l as [|c r IH]; intros acc bytes; split.
  - intros [= <-] _. reflexivity.
  - intros t H. discriminate.
  - intros H Hlen. simpl in H. destruct (is_hex_space c).
    + apply fromhex_from_length in H. simpl in *. lia.
    + simpl. destruct (hex_val c) as [t|]; [|discriminate].
      apply (proj2 (IH acc bytes) t H). simpl in Hlen. lia.
  - intros t H Hlen. simpl in H. simpl.
    destruct (hex_val c) as [b|]; [|discriminate].
    destruct (fromhex_from None r) as [tl|] eqn:E; [|discriminate].
    injection H as <-. simpl in Hlen. simpl.
    rewrite (proj1 (IH (16 * (16 * acc + t) + b)%N tl) eq_refl) by lia.
    do 2 f_equal. lia.
Qed.

Lemma chars_length (s : string) : length (chars s) = String.length s.
Proof.
  unfold chars. induction s as [|c s IH]; simpl; [reflexivity | now rewrite IH].
Qed.

(** [ObjectId] is [bson.ObjectId] on the ids of twelve bytes. *)
Lemma ObjectId_twelve_bytes (line_id : string) (oid : N) :
  ObjectId line_id = Some oid
  <-> exists bytes,
        bson_ObjectId line_id = Some bytes
        /\ length bytes = 12%nat
        /\ bytes_value bytes = oid.
Proof.
  unfold ObjectId, bson_ObjectId, fromhex, bytes_value.
  destruct (String.length line_id =? 24)%nat eqn:E.
  - apply Nat.eqb_eq in E. rewrite <- chars_length in E. split.
    + intros H.
      destruct (proj1 (fromhex_from_digits (chars line_id) 0%N oid))
        as (bs & Hf & Hlen & Hv); [now rewrite E | exact H|].
      exists bs. repeat split; [exact Hf | lia | exact Hv].
    + intros (bs & Hf & Hlen & <-).
      apply (proj1 (fromhex_from_tight (chars line_id) 0%N bs) Hf). lia.
  - split; [discriminate|]. intros (bs & Hf & _). discriminate.
Qed.

(** An id [bson.ObjectId] refuses names no key. *)
Lemma ObjectId_invalid (line_id : string) :
  bson_ObjectId line_id = None -> ObjectId line_id = None.
Proof.
  intros H. destruct (ObjectId line_id) as [oid|] eqn:E; [|reflexivity].
  apply ObjectId_twelve_bytes in E as (bs & Hf & _). congruence.
Qed.

(** An id [bson.ObjectId] builds without naming a key is short. *)
Lemma ObjectId_short (line_id : string) (bytes : list N) :
  ObjectId line_id = None ->
  bson_ObjectId line_id = Some bytes ->
  (length bytes < 12)%nat.
Proof.
  intros Hnone Hb.
  destruct (Nat.lt_ge_cases (length bytes) 12) as [Hlt|Hge]; [exact Hlt|].
  assert (Hlen : length bytes = 12%nat).
  { unfold bson_ObjectId, fromhex in Hb.
    destruct (String.length line_id =? 24)%nat eqn:E; [|discriminate].
    apply Nat.eqb_eq in E. apply fromhex_from_length in Hb.
    rewrite chars_length, E in Hb. lia. }
  assert (ObjectId line_id = Some (bytes_value bytes)) as H.
  { apply ObjectId_twelve_bytes. now exists bytes. }
  congruence.
Qed.

Lemma no_key_invalid {A} (line_id : string) (unmatched invalid : A) :
  bson_ObjectId line_id = None -> no_key line_id unmatched invalid = invalid.
Proof. intros H. unfold no_key. now rewrite H. Qed.

Lemma no_key_unmatched {A} (line_id : string) (bytes : list N)
    (unmatched invalid : A) :
  bson_ObjectId line_id = Some bytes ->
  no_key line_id unmatched invalid = unmatched.
Proof. intros H. unfold no_key. now rewrite H. Qed.

Lemma cumulative_trace_length (stops : list Stop.t) :
  forall i c, length (cumulative_trace i c stops) = length stops.
Proof.
  induction stops as [|s rest IH]; intros i c; simpl.
  - reflexivity.
  - f_equal. apply IH.
Qed.

(** Past index 0 the trace is the running sum started at [c]. *)
Lemma cumulative_trace_succ (stops : list Stop.t) :
  forall (i k : nat) (c : Z),
    (k < length stops)%nat ->
    cumulative_trace (S i) c stops !! k
    = Some (c + sum_minutes (take (S k) stops)).
Proof.
  induction stops as [|s rest IH]; intros i k c Hk; simpl in Hk.
  - lia.
  - destruct k as [|k].
    + simpl. unfold step_cumulative. simpl. f_equal. lia.
    + simpl cumulative_trace. rewrite lookup_cons_ne_0 by lia. simpl pred.
      rewrite IH by lia. unfold step_cumulative. simpl Nat.eqb. cbv iota.
      f_equal. change (take (S (S k)) (s :: rest)) with (s :: take (S k) rest).
      simpl sum_minutes. lia.
Qed.

Lemma stops_loop_length (base_time : datetime.t) (schedules : list string)
    (stops : list Stop.t) :
  forall i c l,
    stops_loop base_time schedules i c stops = Ok l ->
    length l = length stops.
Proof.
  induction stops as [|s rest IH]; intros i c l H; simpl in H.
  - injection H as <-. reflexivity.
  - destruct (arrivals_loop _ _ _) as [a|e]; simpl in H; [|discriminate].
    destruct (stops_loop _ _ _ _ rest) as [tl|e] eqn:E; simpl in H;
      [|discriminate].
    injection H as <-. simpl. f_equal. eapply IH, E.
Qed.

Lemma focus_0 (l : list Eta) : focus 0 l = l.
Proof.
  unfold focus. destruct (_ && _); [apply drop_0 | reflexivity].
Qed.

(** ** C1: cumulative travel minutes *)

(** Past index 0 the loop of the source, started with the running total
    [c], is the projection with any offsets that agree with the running
    sums from [c]. *)
Lemma stops_loop_entries_at (base_time : datetime.t)
    (schedules : list string) (stops : list Stop.t) :
  forall (i k : nat) (c : Z) (offset : nat -> Z),
    (forall j, (j < length stops)%nat ->
               offset (k + j)%nat = c + sum_minutes (take (S j) stops)) ->
    stops_loop base_time schedules (S i) c stops
    = entries_at base_time schedules offset k stops.
Proof.
  induction stops as [|s rest IH]; intros i k c offset Hoff; [reflexivity|].
  simpl. unfold step_cumulative. simpl Nat.eqb. cbv iota.
  assert (H0 : offset k = c + travel_minutes s).
  { rewrite <- (Nat.add_0_r k) at 1. rewrite Hoff by (simpl; lia).
    simpl. lia. }
  rewrite H0. rewrite (IH (S i) (S k) (c + travel_minutes s) offset);
    [reflexivity|].
  intros j Hj. replace (S k + j)%nat with (k + S j)%nat by lia.
  rewrite Hoff by (simpl; lia).
  change (take (S (S j)) (s :: rest)) with (s :: take (S j) rest).
  simpl sum_minutes. lia.
Qed.

(** The loop of the source, with its running total, is the projection
    with the offsets of the specification. *)
Lemma stops_loop_prefix_offset (base_time : datetime.t)
    (schedules : list string) (stops : list Stop.t) :
  stops_loop base_time schedules 0 0 stops
  = entries_at base_time schedules (prefix_offset stops) 0 stops.
Proof.
  destruct stops as [|s0 rest]; [reflexivity|].
  simpl. unfold step_cumulative. simpl Nat.eqb. cbv iota.
  change (prefix_offset (s0 :: rest) 0) with 0.
  rewrite (stops_loop_entries_at base_time schedules rest 0 1 0
             (prefix_offset (s0 :: rest))); [reflexivity|].
  intros j Hj. unfold prefix_offset.
  change (drop 1 (s0 :: rest)) with rest.
  change (1 + j)%nat with (S j). lia.
Qed.

(** C1. The stop loop of [compute_eta], which keeps a running total, is
    the projection in which the stop at index [k] is given the offset
    [prefix_offset stops k]: 0 at index 0 whatever that stop stores as
    [travel_minutes_from_prev], and at every index [k >= 1] the sum of
    [travel_minutes_from_prev] over the stops at indices 1 to [k]. This
    holds of the loop for every reference time and schedule list, errors
    included, of the values the variable [cumulative] takes, and of what
    [compute_eta] returns for a stored line with departures. *)
Theorem cumulative_offset_is_prefix_sum
    (clock : datetime.t) (db : store) (line_id : string)
    (from_stop_index : Z) (now : option string) (oid : N) (doc : Line.t) :
  ObjectId line_id = Some oid ->
  db !! oid = Some doc ->
  Line.schedules doc <> [] ->
  let stops := Line.stops doc in
  (forall base_time schedules,
      stops_loop base_time schedules 0 0 stops
      = entries_at base_time schedules (prefix_offset stops) 0 stops)
  /\ compute_eta clock db line_id from_stop_index now
     = (base_time <- resolve_base_time clock now ;;
        l <- entries_at base_time (Line.schedules doc)
                        (prefix_offset stops) 0 stops ;;
        Ok {| etas := focus from_stop_index l |})
  /\ (forall s0 rest, prefix_offset (s0 :: rest) 0 = 0)
  /\ (forall k, (1 <= k)%nat ->
                prefix_offset stops k = sum_minutes (take k (drop 1 stops)))
  /\ (forall k, (k < length stops)%nat ->
                cumulative_trace 0 0 stops !! k
                = Some (prefix_offset stops k)).
Proof.
  intros Hid Hdoc Hs stops.
  split; [intros; apply stops_loop_prefix_offset|].
  split.
  - unfold compute_eta, find_one. rewrite Hid, Hdoc. fold stops.
    destruct (Line.schedules doc) as [|d0 ds]; [congruence|].
    destruct (resolve_base_time clock now) as [base|e]; simpl;
      [|reflexivity].
    now rewrite stops_loop_prefix_offset.
  - split; [reflexivity|]. split; [reflexivity|].
    intros k Hk. unfold prefix_offset.
    destruct stops as [|s0 rest]; simpl in Hk; [lia|].
    destruct k as [|k]; [reflexivity|].
    simpl cumulative_trace. rewrite lookup_cons_ne_0 by lia. simpl pred.
    unfold step_cumulative at 1. simpl Nat.eqb. cbv iota.
    rewrite cumulative_trace_succ by lia.
    change (drop 1 (s0 :: rest)) with rest. reflexivity.
Qed.

Lemma cumulative_offset_is_prefix_sum_witness :
  compute_eta example_clock detour_db example_id 0 None
  = (l <- entries_at example_clock ["07:30"; "08:00"]%string
                     (prefix_offset detour_stops) 0 detour_stops ;;
     Ok {| etas := focus 0 l |})
  /\ prefix_offset detour_stops 0 = 0
  /\ prefix_offset detour_stops 3 = 5 + 0 + 6.
Proof.
  split; [|split; reflexivity].
  refine (proj1 (proj2 (cumulative_offset_is_prefix_sum
                          example_clock detour_db example_id 0 None 1%N
                          detour_line _ _ _))).
  - reflexivity.
  - reflexivity.
  - discriminate.
Defined.

(** ** C2: arrival times *)

Lemma replace_ok (base_time dt : datetime.t) (hh mm : Z) :
  datetime.replace base_time hh mm = Ok dt ->
  0 <= hh <= 23 /\ 0 <= mm <= 59
  /\ dt = datetime.mk (datetime.ordinal base_time) hh mm 0 0.
Proof.
  unfold datetime.replace.
  destruct (negb _); [discriminate|].
  destruct (_ && _) eqn:E; [|discriminate].
  intros [= <-]. repeat split; lia.
Qed.

Lemma arrival_ok (base_time : datetime.t) (c : Z) (dep a : string) :
  arrival base_time c dep = Ok a ->
  exists hh mm,
    parse_dep dep = Ok (hh, mm) /\ 0 <= hh <= 23 /\ 0 <= mm <= 59
    /\ a = render_minutes ((60 * hh + mm + c) mod 1440).
Proof.
  unfold arrival. destruct (parse_dep dep) as [[hh mm]|e]; simpl;
    [|discriminate].
  destruct (datetime.replace _ _ _) as [dt|e] eqn:R; simpl; [|discriminate].
  apply replace_ok in R as (Hh & Hm & ->).
  unfold datetime.add_minutes. simpl.
  destruct (_ && _); [|discriminate].
  intros [= <-]. exists hh, mm. repeat split; try lia.
Qed.

(** On a valid date an offset that stays within the day cannot fail. *)
Lemma arrival_same_day (base_time : datetime.t) (c : Z) (dep : string)
    (hh mm : Z) :
  valid_date base_time ->
  parse_dep dep = Ok (hh, mm) ->
  0 <= hh <= 23 -> 0 <= mm <= 59 ->
  0 <= 60 * hh + mm + c < 1440 ->
  arrival base_time c dep = Ok (render_minutes (60 * hh + mm + c)).
Proof.
  intros [Hlo Hhi] Hp Hh Hm Ht. unfold arrival. rewrite Hp. simpl.
  unfold datetime.replace, datetime.fits_c_int.
  replace (negb _) with false by (symmetry; apply negb_false_iff; lia).
  replace ((0 <=? hh) && (hh <=? 23) && (0 <=? mm) && (mm <=? 59))
    with true by lia.
  simpl. unfold datetime.add_minutes. simpl.
  rewrite (Z.div_small (60 * hh + mm + c) 1440) by lia.
  rewrite (Z.mod_small (60 * hh + mm + c) 1440) by lia.
  replace ((1 <=? _) && (_ <=? datetime.MAXORDINAL)) with true by lia.
  reflexivity.
Qed.

Lemma arrivals_loop_lookup (base_time : datetime.t) (c : Z)
    (schedules : list string) :
  forall l,
    arrivals_loop base_time c schedules = Ok l ->
    length l = length schedules
    /\ forall j a, l !! j = Some a ->
         exists dep, schedules !! j = Some dep
                     /\ arrival base_time c dep = Ok a.
Proof.
  induction schedules as [|dep rest IH]; intros l H; simpl in H.
  - injection H as <-. split; [reflexivity|]. intros j a Hj.
    rewrite lookup_nil in Hj. discriminate.
  - destruct (arrival _ _ dep) as [a0|e] eqn:A; simpl in H; [|discriminate].
    destruct (arrivals_loop _ _ rest) as [tl|e]; simpl in H; [|discriminate].
    injection H as <-. destruct (IH tl eq_refl) as [Hlen Hall].
    split; [simpl; lia|].
    intros [|j] a Hj; simpl in Hj.
    + injection Hj as <-. exists dep. split; [reflexivity | exact A].
    + destruct (Hall j a Hj) as (d & Hd & Ha). exists d. split; assumption.
Qed.

Lemma stops_loop_lookup (base_time : datetime.t) (schedules : list string)
    (stops : list Stop.t) :
  forall i c l,
    stops_loop base_time schedules i c stops = Ok l ->
    forall p e, l !! p = Some e ->
      exists s cu,
        stops !! p = Some s
        /\ cumulative_trace i c stops !! p = Some cu
        /\ stop e = Stop.name s
        /\ arrivals_loop base_time cu schedules = Ok (arrivals e).
Proof.
  induction stops as [|s rest IH]; intros i c l H p e Hp; simpl in H.
  - injection H as <-. rewrite lookup_nil in Hp. discriminate.
  - destruct (arrivals_loop _ _ _) as [a|err] eqn:A; simpl in H;
      [|discriminate].
    destruct (stops_loop _ _ _ _ rest) as [tl|err] eqn:E; simpl in H;
      [|discriminate].
    injection H as <-. destruct p as [|p]; simpl in Hp.
    + injection Hp as <-. exists s, (step_cumulative i c s).
      repeat split; [exact A].
    + destruct (IH _ _ _ E p e Hp) as (s' & cu & H1 & H2 & H3 & H4).
      exists s', cu. repeat split; assumption.
Qed.

Lemma reads_back_all :
  forallb reads_back (map Z.of_nat (seq 0 1440)) = true.
Proof. vm_compute. reflexivity. Qed.

Lemma parse_dep_render (hh mm : Z) :
  0 <= hh <= 23 -> 0 <= mm <= 59 ->
  parse_dep (render_minutes (60 * hh + mm)) = Ok (hh, mm).
Proof.
  intros Hh Hm. pose proof reads_back_all as H.
  rewrite forallb_forall in H.
  specialize (H (60 * hh + mm)). unfold reads_back in H.
  destruct (parse_dep _) as [[h m]|e].
  - assert (Hin : In (60 * hh + mm) (map Z.of_nat (seq 0 1440))).
    { apply in_map_iff. exists (Z.to_nat (60 * hh + mm)).
      split; [lia|]. apply in_seq. lia. }
    apply H in Hin. apply andb_true_iff in Hin as [E1 E2].
    apply Z.eqb_eq in E1, E2. f_equal. f_equal.
    + rewrite E1. symmetry. apply (Z.div_unique _ _ _ mm); lia.
    + rewrite E2. symmetry. apply (Z.mod_unique _ _ hh); lia.
  - assert (Hin : In (60 * hh + mm) (map Z.of_nat (seq 0 1440))).
    { apply in_map_iff. exists (Z.to_nat (60 * hh + mm)).
      split; [lia|]. apply in_seq. lia. }
    apply H in Hin. discriminate.
Qed.

(** The projection is returned whenever the schedule entries are well
    formed and every cumulative offset keeps the date in range. *)
Lemma arrival_returns (base_time : datetime.t) (c : Z) (dep : string) :
  well_formed_dep dep ->
  keeps_date base_time c ->
  exists a, arrival base_time c dep = Ok a.
Proof.
  intros (hh & mm & Hp & Hh & Hm) [Hlo Hhi]. unfold arrival. rewrite Hp.
  simpl. unfold datetime.replace, datetime.fits_c_int.
  replace (negb _) with false by (symmetry; apply negb_false_iff; lia).
  replace ((0 <=? hh) && (hh <=? 23) && (0 <=? mm) && (mm <=? 59))
    with true by lia.
  simpl. unfold datetime.add_minutes. simpl.
  assert (Hq : c / 1440 <= (60 * hh + mm + c) / 1440 <= c / 1440 + 1).
  { Z.to_euclidean_division_equations. lia. }
  replace ((1 <=? _) && (_ <=? datetime.MAXORDINAL)) with true by lia.
  eexists. reflexivity.
Qed.

Lemma arrivals_loop_returns (base_time : datetime.t) (c : Z)
    (schedules : list string) :
  Forall well_formed_dep schedules ->
  keeps_date base_time c ->
  exists l, arrivals_loop base_time c schedules = Ok l.
Proof.
  intros Hall Hc. induction Hall as [|dep rest Hdep _ IH]; simpl.
  - now exists [].
  - destruct (arrival_returns base_time c dep Hdep Hc) as [a ->].
    destruct IH as [l ->]. simpl. now eexists.
Qed.

Lemma stops_loop_returns (base_time : datetime.t) (schedules : list string)
    (stops : list Stop.t) :
  Forall well_formed_dep schedules ->
  forall i c,
    Forall (keeps_date base_time) (cumulative_trace i c stops) ->
    exists l, stops_loop base_time schedules i c stops = Ok l.
Proof.
  intros Hs. induction stops as [|s rest IH]; intros i c Ht; simpl.
  - now exists [].
  - simpl in Ht. apply Forall_cons in Ht as [H0 Hrest].
    destruct (arrivals_loop_returns base_time _ schedules Hs H0) as [a ->].
    destruct (IH _ _ Hrest) as [l ->]. simpl. now eexists.
Qed.

Lemma focus_lookup (from_stop_index : Z) (stops : list Stop.t)
    (l : list Eta) (p : nat) :
  length l = length stops ->
  focus from_stop_index l !! p = l !! (first_stop from_stop_index stops + p)%nat.
Proof.
  intros Hlen. unfold focus, first_stop. rewrite Hlen.
  destruct (_ && _).
  - apply lookup_drop.
  - reflexivity.
Qed.

Ltac same_day hh mm :=
  rewrite (arrival_same_day _ _ _ hh mm)
    by first [assumption | reflexivity | lia].

Lemma example_projection_computed (clock : datetime.t) :
  valid_date clock ->
  compute_eta clock example_db example_id 0 None = Ok example_projection.
Proof.
  intros Hclock. unfold compute_eta.
  replace (ObjectId example_id) with (Some 1%N) by reflexivity.
  replace (find_one example_db 1%N) with (Some example_line) by reflexivity.
  cbn [example_line Line.stops Line.schedules resolve_base_time bind].
  cbn [stops_loop arrivals_loop step_cumulative Nat.eqb travel_minutes
       example_stop Stop.travel_minutes_from_prev default from_option id
       Z.add Pos.add Pos.succ].
  same_day 7 30. same_day 8 0. cbn [bind].
  same_day 7 30. same_day 8 0. cbn [bind].
  same_day 7 30. same_day 8 0. cbn [bind].
  reflexivity.
Qed.

(** C2. For every (stop, schedule) pair of a projection returned by
    [compute_eta], the arrival string is the schedule's hour and minute
    plus the stop's cumulative travel minutes, taken modulo the 1440
    minutes of a day and rendered as [HH:MM]; entry [p] of the projection
    stands for the stop at index [first_stop + p] and holds one arrival
    per schedule entry. For the stops A(0), B(5), C(4) and the schedules
    07:30 and 08:00 the projection is A: 07:30, 08:00; B: 07:35, 08:05;
    C: 07:39, 08:09. *)
Theorem arrival_is_departure_plus_offset
    (clock : datetime.t) (db : store) (line_id : string)
    (from_stop_index : Z) (now : option string)
    (oid : N) (doc : Line.t) (resp : EtaResponse) :
  ObjectId line_id = Some oid ->
  db !! oid = Some doc ->
  compute_eta clock db line_id from_stop_index now = Ok resp ->
  (forall p e,
      etas resp !! p = Some e ->
      let k := (first_stop from_stop_index (Line.stops doc) + p)%nat in
      exists s c,
        Line.stops doc !! k = Some s
        /\ cumulative_trace 0 0 (Line.stops doc) !! k = Some c
        /\ stop e = Stop.name s
        /\ length (arrivals e) = length (Line.schedules doc)
        /\ forall j a,
             arrivals e !! j = Some a ->
             exists dep hh mm,
               Line.schedules doc !! j = Some dep
               /\ parse_dep dep = Ok (hh, mm)
               /\ 0 <= hh <= 23 /\ 0 <= mm <= 59
               /\ a = render_minutes ((60 * hh + mm + c) mod 1440))
  /\ (forall clock', valid_date clock' ->
        compute_eta clock' example_db example_id 0 None
        = Ok example_projection).
Proof.
  intros Hid Hdoc Hrun. split; [|exact example_projection_computed].
  unfold compute_eta in Hrun. rewrite Hid in Hrun. unfold find_one in Hrun.
  rewrite Hdoc in Hrun.
  destruct (Line.schedules doc) as [|d0 ds] eqn:Hs.
  - injection Hrun as <-. intros p e Hp. simpl in Hp.
    rewrite lookup_nil in Hp. discriminate.
  - destruct (resolve_base_time clock now) as [base|err]; simpl in Hrun;
      [|discriminate].
    destruct (stops_loop _ _ _ _ _) as [l|err] eqn:L; simpl in Hrun;
      [|discriminate].
    injection Hrun as <-. intros p e Hp k. simpl in Hp.
    rewrite (focus_lookup _ (Line.stops doc)) in Hp
      by (eapply stops_loop_length, L).
    destruct (stops_loop_lookup _ _ _ _ _ _ L _ _ Hp)
      as (s & c & H1 & H2 & H3 & H4).
    destruct (arrivals_loop_lookup _ _ _ _ H4) as [Hlen Hall].
    exists s, c. repeat split; try assumption.
    intros j a Hj. destruct (Hall j a Hj) as (dep & Hd & Ha).
    destruct (arrival_ok _ _ _ _ Ha) as (hh & mm & Hp' & Hh & Hm & ->).
    exists dep, hh, mm. repeat split; try assumption; lia.
Qed.

Lemma arrival_is_departure_plus_offset_witness :
  (forall p e,
      drop 1 (etas example_projection) !! p = Some e ->
      exists s c,
        Line.stops example_line !! (1 + p)%nat = Some s
        /\ cumulative_trace 0 0 (Line.stops example_line) !! (1 + p)%nat
           = Some c
        /\ stop e = Stop.name s
        /\ length (arrivals e) = 2%nat
        /\ forall j a,
             arrivals e !! j = Some a ->
             exists dep hh mm,
               Line.schedules example_line !! j = Some dep
               /\ parse_dep dep = Ok (hh, mm)
               /\ 0 <= hh <= 23 /\ 0 <= mm <= 59
               /\ a = render_minutes ((60 * hh + mm + c) mod 1440))
  /\ (forall clock', valid_date clock' ->
        compute_eta clock' example_db example_id 0 None
        = Ok example_projection).
Proof.
  apply (arrival_is_departure_plus_offset
           example_clock example_db example_id 1 (Some "7:5"%string)
           1%N example_line
           {| etas := drop 1 (etas example_projection) |}); reflexivity.
Defined.

(** ** C6: empty schedule list *)

(** C6. For a line whose schedule list is empty [compute_eta] returns the
    empty projection, whatever the stops, [from_stop_index], the reference
    time and the clock are; no error is raised, not even for a [now] that
    does not parse. *)
Theorem empty_schedules_empty_projection
    (clock : datetime.t) (db : store) (line_id : string)
    (from_stop_index : Z) (now : option string) (oid : N) (doc : Line.t) :
  ObjectId line_id = Some oid ->
  db !! oid = Some doc ->
  Line.schedules doc = [] ->
  compute_eta clock db line_id from_stop_index now = Ok {| etas := [] |}.
Proof.
  intros Hid Hdoc Hs. unfold compute_eta, find_one.
  rewrite Hid, Hdoc, Hs. reflexivity.
Qed.

Lemma empty_schedules_empty_projection_witness :
  compute_eta example_clock {[ 1%N := idle_line ]} example_id 7
              (Some "half past nine"%string)
  = Ok {| etas := [] |}.
Proof.
  apply (empty_schedules_empty_projection
           example_clock {[ 1%N := idle_line ]} example_id 7
           (Some "half past nine"%string) 1%N idle_line); reflexivity.
Defined.

(** ** C7: focus from a stop index *)

(** C7. With [from_stop_index] within [0, length(stops)) the projection
    is the full projection (the one for index 0) without its first
    [from_stop_index] entries; with any other [from_stop_index], negative
    or too large, the result is the full projection itself. In both cases
    the request fails exactly when the request for index 0 fails, and
    with the same exception. *)
Theorem focus_from_stop_index
    (clock : datetime.t) (db : store) (line_id : string)
    (from_stop_index : Z) (now : option string) (oid : N) (doc : Line.t) :
  ObjectId line_id = Some oid ->
  db !! oid = Some doc ->
  (0 <= from_stop_index < Z.of_nat (length (Line.stops doc)) ->
     compute_eta clock db line_id from_stop_index now
     = (full <- compute_eta clock db line_id 0 now ;;
        Ok {| etas := drop (Z.to_nat from_stop_index) (etas full) |}))
  /\ (from_stop_index < 0
      \/ Z.of_nat (length (Line.stops doc)) <= from_stop_index ->
     compute_eta clock db line_id from_stop_index now
     = compute_eta clock db line_id 0 now).
Proof.
  intros Hid Hdoc. unfold compute_eta, find_one. rewrite Hid, Hdoc.
  destruct (Line.schedules doc) as [|d0 ds].
  - split; intros _; simpl; [|reflexivity]. now rewrite drop_nil.
  - destruct (resolve_base_time clock now) as [base|err]; simpl;
      [|split; reflexivity].
    destruct (stops_loop _ _ _ _ _) as [l|err] eqn:L; simpl;
      [|split; reflexivity].
    apply stops_loop_length in L. rewrite focus_0. unfold focus. rewrite L.
    split; intros H.
    + replace (_ && _) with true by lia. reflexivity.
    + replace (_ && _) with false by lia. reflexivity.
Qed.

Lemma focus_from_stop_index_witness :
  (compute_eta example_clock example_db example_id 2 None
   = (full <- compute_eta example_clock example_db example_id 0 None ;;
      Ok {| etas := drop 2 (etas full) |}))
  /\ (compute_eta example_clock example_db example_id 3 None
      = compute_eta example_clock example_db example_id 0 None)
  /\ (compute_eta example_clock example_db example_id (-1) None
      = compute_eta example_clock example_db example_id 0 None).
Proof.
  split; [|split].
  - apply (proj1 (focus_from_stop_index
                    example_clock example_db example_id 2 None
                    1%N example_line eq_refl eq_refl)).
    simpl. lia.
  - apply (proj2 (focus_from_stop_index
                    example_clock example_db example_id 3 None
                    1%N example_line eq_refl eq_refl)).
    simpl. lia.
  - apply (proj2 (focus_from_stop_index
                    example_clock example_db example_id (-1) None
                    1%N example_line eq_refl eq_refl)).
    simpl. lia.
Defined.

(** ** C4 and C5: index-addressed mutations *)

Lemma update_one_found (db : store) (oid : N) (doc : Line.t)
    (update : Line.t -> Line.t) :
  db !! oid = Some doc ->
  fst (update_one db oid update) = <[oid := update doc]> db.
Proof. intros H. unfold update_one. rewrite H. reflexivity. Qed.

Lemma setitem_overwritten {A} (given old : option A) :
  overwritten given old (setitem given old).
Proof.
  unfold overwritten. destruct given as [v|]; simpl; split; congruence.
Qed.

(** C4. On a stored line and a valid index [i], [edit_stop] succeeds and
    leaves a store in which the stop at [i] has exactly the members given
    in the patch overwritten (its other members, the other stops, the
    number of stops, the other members of the line and every other line
    are as before); on an index out of bounds it raises the 400 "Invalid
    stop index" and the store is unchanged. *)
Theorem patch_changes_only_given_fields
    (db : store) (line_id : string) (patch : StopPatch.t)
    (oid : N) (doc : Line.t) :
  ObjectId line_id = Some oid ->
  db !! oid = Some doc ->
  let i := StopPatch.index patch in
  (0 <= i < Z.of_nat (length (Line.stops doc)) ->
     exists db' doc' old new,
       edit_stop db line_id patch = (Ok ok_true, db')
       /\ (forall other, other <> oid -> db' !! other = db !! other)
       /\ db' !! oid = Some doc'
       /\ same_but_stops doc doc'
       /\ length (Line.stops doc') = length (Line.stops doc)
       /\ (forall j, j <> Z.to_nat i ->
             Line.stops doc' !! j = Line.stops doc !! j)
       /\ Line.stops doc !! Z.to_nat i = Some old
       /\ Line.stops doc' !! Z.to_nat i = Some new
       /\ Stop.id new = Stop.id old
       /\ overwritten (StopPatch.name patch) (Stop.name old) (Stop.name new)
       /\ overwritten (StopPatch.lat patch) (Stop.lat old) (Stop.lat new)
       /\ overwritten (StopPatch.lng patch) (Stop.lng old) (Stop.lng new)
       /\ overwritten (StopPatch.travel_minutes_from_prev patch)
                      (Stop.travel_minutes_from_prev old)
                      (Stop.travel_minutes_from_prev new))
  /\ (i < 0 \/ Z.of_nat (length (Line.stops doc)) <= i ->
      edit_stop db line_id patch = (Raise InvalidIndex, db)).
Proof.
  intros Hid Hdoc i. unfold edit_stop, find_one. rewrite Hid, Hdoc.
  fold i. split; intros Hi.
  - replace ((i <? 0) || (_ <=? i)) with false by lia.
    assert (Hlt : (Z.to_nat i < length (Line.stops doc))%nat) by lia.
    destruct (lookup_lt_is_Some_2 _ _ Hlt) as [old Hold]. rewrite Hold.
    rewrite (update_one_found _ _ _ _ Hdoc).
    eexists _, _, old, (apply_patch patch old).
    split; [reflexivity|].
    split; [intros other Hne; now rewrite lookup_insert_ne|].
    split; [apply lookup_insert_eq|].
    split; [repeat split|].
    split; [apply length_insert|].
    split; [intros j Hj; simpl; now rewrite list_lookup_insert_ne|].
    split; [reflexivity|].
    split; [simpl; now rewrite list_lookup_insert_eq|].
    split; [reflexivity|].
    repeat split; simpl; try congruence;
      match goal with
      | |- context [setitem ?g ?o] =>
          intros; destruct (setitem_overwritten g o); auto
      end.
  - replace ((i <? 0) || (_ <=? i)) with true by lia. reflexivity.
Qed.

Lemma patch_changes_only_given_fields_witness :
  (exists db' doc' new,
      edit_stop example_db example_id rename_centro = (Ok ok_true, db')
      /\ db' !! 1%N = Some doc'
      /\ Line.stops doc' !! 1%nat = Some new
      /\ Line.stops doc' !! 2%nat = Line.stops example_line !! 2%nat)
  /\ edit_stop example_db example_id patch_out_of_range
     = (Raise InvalidIndex, example_db).
Proof.
  split.
  - destruct (proj1 (patch_changes_only_given_fields
                       example_db example_id rename_centro 1%N example_line
                       eq_refl eq_refl))
      as (db' & doc' & old & new & H1 & _ & H3 & _ & _ & H6 & _ & H8 & _).
    + simpl. lia.
    + exists db', doc', new. repeat split; try assumption.
      apply H6. simpl. lia.
  - apply (proj2 (patch_changes_only_given_fields
                    example_db example_id patch_out_of_range 1%N example_line
                    eq_refl eq_refl)).
    right. simpl. lia.
Defined.

(** C5. On a stored line and a valid index [i], [delete_stop] succeeds
    and leaves a store in which the line has exactly one stop fewer: the
    stops before [i] are where they were, every stop that was at an index
    [j > i] is at [j - 1], and the other members of the line and every
    other line are as before. *)
Theorem delete_removes_exactly_one
    (db : store) (line_id : string) (payload : StopDelete.t)
    (oid : N) (doc : Line.t) :
  ObjectId line_id = Some oid ->
  db !! oid = Some doc ->
  let i := StopDelete.index payload in
  0 <= i < Z.of_nat (length (Line.stops doc)) ->
  exists db' doc',
    delete_stop db line_id payload = (Ok ok_true, db')
    /\ (forall other, other <> oid -> db' !! other = db !! other)
    /\ db' !! oid = Some doc'
    /\ same_but_stops doc doc'
    /\ S (length (Line.stops doc')) = length (Line.stops doc)
    /\ (forall j, (j < Z.to_nat i)%nat ->
          Line.stops doc' !! j = Line.stops doc !! j)
    /\ (forall j, (Z.to_nat i < j)%nat ->
          Line.stops doc' !! (j - 1)%nat = Line.stops doc !! j).
Proof.
  intros Hid Hdoc i Hi. unfold delete_stop, find_one. rewrite Hid, Hdoc.
  fold i. replace ((i <? 0) || (_ <=? i)) with false by lia.
  assert (Hlt : (Z.to_nat i < length (Line.stops doc))%nat) by lia.
  rewrite (update_one_found _ _ _ _ Hdoc).
  eexists _, _. split; [reflexivity|].
  split; [intros other Hne; now rewrite lookup_insert_ne|].
  split; [apply lookup_insert_eq|].
  split; [repeat split|].
  split; [simpl; rewrite length_delete by (apply lookup_lt_is_Some_2, Hlt);
          lia|].
  split; simpl; intros j Hj.
  - now apply list_lookup_delete_lt.
  - rewrite list_lookup_delete_ge by lia. f_equal. lia.
Qed.

Lemma delete_removes_exactly_one_witness :
  exists db' doc',
    delete_stop example_db example_id (StopDelete.mk 1) = (Ok ok_true, db')
    /\ db' !! 1%N = Some doc'
    /\ length (Line.stops doc') = 2%nat
    /\ Line.stops doc' !! 0%nat = Line.stops example_line !! 0%nat
    /\ Line.stops doc' !! 1%nat = Line.stops example_line !! 2%nat.
Proof.
  destruct (delete_removes_exactly_one
              example_db example_id (StopDelete.mk 1) 1%N example_line
              eq_refl eq_refl)
    as (db' & doc' & H1 & _ & H3 & _ & H5 & H6 & H7).
  - simpl. lia.
  - exists db', doc'. repeat split; try assumption.
    + simpl in H5. lia.
    + apply H6. simpl. lia.
    + apply (H7 2%nat). simpl. lia.
Defined.

(** ** C3: replacing the schedules of a line *)

(** C3, as stated, fails: a line id that [bson.ObjectId] refuses (here
    one of 16 characters) does not resolve to a line, and [set_schedules]
    answers it with the 400 "Invalid line id" of its [except] clause,
    which is not the 404. *)
Lemma set_schedules_malformed_id_is_400 :
  ~ resolves example_db malformed_id
  /\ set_schedules example_db malformed_id morning
     = (Raise (HTTPException 400 "Invalid line id"), example_db)
  /\ fst (set_schedules example_db malformed_id morning) <> Raise NotFound.
Proof.
  split; [|split].
  - intros (oid & doc & Hid & _). discriminate Hid.
  - reflexivity.
  - discriminate.
Qed.

(** C3, amended. [set_schedules] fails, with the 400 "Invalid line id"
    and without touching the store, when the line id is malformed, that
    is when [bson.ObjectId] refuses it; when the id names a stored line
    it answers [{"ok": True}] and leaves a store in which that line has
    the given schedule list, its other members and every other line being
    as before. *)
Theorem set_schedules_rejects_or_replaces
    (db : store) (line_id : string) (payload : SchedulePayload.t) :
  (bson_ObjectId line_id = None ->
     set_schedules db line_id payload = (Raise InvalidLineId, db))
  /\ (forall oid doc,
        ObjectId line_id = Some oid ->
        db !! oid = Some doc ->
        exists db' doc',
          set_schedules db line_id payload = (Ok ok_true, db')
          /\ (forall other, other <> oid -> db' !! other = db !! other)
          /\ db' !! oid = Some doc'
          /\ Line.schedules doc' = SchedulePayload.schedules payload
          /\ Line.stops doc' = Line.stops doc
          /\ Line.name doc' = Line.name doc
          /\ Line.description doc' = Line.description doc
          /\ Line.color doc' = Line.color doc
          /\ Line.locale doc' = Line.locale doc).
Proof.
  unfold set_schedules. split.
  - intros H. rewrite (ObjectId_invalid _ H). now apply no_key_invalid.
  - intros oid doc -> Hdoc. rewrite (update_one_found _ _ _ _ Hdoc).
    eexists _, _. split; [reflexivity|].
    split; [intros other Hne; now rewrite lookup_insert_ne|].
    split; [apply lookup_insert_eq|].
    repeat split.
Qed.

Lemma set_schedules_rejects_or_replaces_witness :
  set_schedules example_db malformed_id morning
  = (Raise InvalidLineId, example_db)
  /\ exists db' doc',
       set_schedules example_db example_id morning = (Ok ok_true, db')
       /\ db' !! 1%N = Some doc'
       /\ Line.schedules doc' = ["09:00"; "09:30"]%string
       /\ Line.stops doc' = Line.stops example_line.
Proof.
  split.
  - apply (proj1 (set_schedules_rejects_or_replaces
                    example_db malformed_id morning)).
    reflexivity.
  - destruct (proj2 (set_schedules_rejects_or_replaces
                       example_db example_id morning)
                    1%N example_line eq_refl eq_refl)
      as (db' & doc' & H1 & _ & H3 & H4 & H5 & _).
    exists db', doc'. repeat split; assumption.
Defined.

(** Not part of the amended claim: with an id of twelve bytes that names
    no stored line [set_schedules] answers [{"ok": True}] as well, since
    it does not look at [matched_count], where [add_stop] raises the
    404. *)
Lemma set_schedules_unmatched (db : store) (line_id : string) (oid : N)
    (payload : SchedulePayload.t) :
  ObjectId line_id = Some oid ->
  db !! oid = None ->
  set_schedules db line_id payload = (Ok ok_true, db)
  /\ forall stop, add_stop db line_id stop = (Raise NotFound, db).
Proof.
  intros Hid Hnone. unfold set_schedules, add_stop, update_one.
  rewrite Hid, Hnone. split; reflexivity.
Qed.

(** ** C9: negative travel minutes at stop creation *)

(** C9. The route that appends a stop accepts a body whose
    [travel_minutes_from_prev] is -5: the stop is appended to the line
    and the answer is [{"ok": True}], although the [Stop] schema of
    [schemas.py] rejects the same body. *)
Theorem post_stop_accepts_negative_minutes :
  post_stop example_db example_id negative_stop
  = (Ok ok_true,
     {[ 1%N := Line.set_stops
                 (Line.stops example_line ++ [negative_stop]) example_line ]})
  /\ Stop.validate negative_stop = Raise ValidationError.
Proof. split; reflexivity. Qed.

(** ** C8: a line id that does not resolve *)

Lemma bind_raises {A B} (P : exn -> Prop) (r : result A)
    (k : A -> result B) (e : exn) :
  (forall e', r = Raise e' -> P e') ->
  (forall a e', k a = Raise e' -> P e') ->
  bind r k = Raise e -> P e.
Proof.
  intros Hr Hk. destruct r as [a|e']; simpl.
  - apply Hk.
  - intros [= <-]. now apply Hr.
Qed.

Lemma py_int_raises (l : list ascii) (e : exn) :
  py_int l = Raise e -> e = ValueError.
Proof.
  unfold py_int. destruct (digits_val _ _ _); [|now intros [= <-]].
  destruct (_ <=? _)%nat; [discriminate | now intros [= <-]].
Qed.

Lemma parse_dep_raises (dep : string) (e : exn) :
  parse_dep dep = Raise e -> e = ValueError.
Proof.
  unfold parse_dep.
  destruct (split ":" dep) as [|h [|m [|x t]]]; try now intros [= <-].
  apply (bind_raises (fun x => x = ValueError)); [apply py_int_raises|].
  intros hh e'.
  apply (bind_raises (fun x => x = ValueError)); [apply py_int_raises|].
  discriminate.
Qed.

Lemma arrival_raises (base_time : datetime.t) (c : Z) (dep : string)
    (e : exn) :
  arrival base_time c dep = Raise e -> projection_error e.
Proof.
  unfold arrival.
  apply (bind_raises projection_error);
    [intros e' H; left; eapply parse_dep_raises, H|].
  intros hm e'. apply (bind_raises projection_error).
  - unfold datetime.replace. intros e''.
    destruct (negb _); [intros [= <-]; now right|].
    destruct (_ && _); [discriminate|]. intros [= <-]. now left.
  - intros dt e''. apply (bind_raises projection_error); [|discriminate].
    unfold datetime.add_minutes. intros e3.
    destruct (_ && _); [discriminate|]. intros [= <-]. now right.
Qed.

Lemma arrivals_loop_raises (base_time : datetime.t) (c : Z)
    (schedules : list string) :
  forall e,
    arrivals_loop base_time c schedules = Raise e -> projection_error e.
Proof.
  induction schedules as [|dep rest IH]; intros e; simpl; [discriminate|].
  apply (bind_raises projection_error); [intros e'; apply arrival_raises|].
  intros a e'. apply (bind_raises projection_error); [|discriminate].
  intros e''. apply IH.
Qed.

Lemma stops_loop_raises (base_time : datetime.t) (schedules : list string)
    (stops : list Stop.t) :
  forall i c e,
    stops_loop base_time schedules i c stops = Raise e -> projection_error e.
Proof.
  induction stops as [|s rest IH]; intros i c e; simpl; [discriminate|].
  apply (bind_raises projection_error);
    [intros e'; apply arrivals_loop_raises|].
  intros a e'. apply (bind_raises projection_error); [|discriminate].
  intros e''. apply IH.
Qed.

Lemma resolve_base_time_raises (clock : datetime.t) (now : option string)
    (e : exn) :
  resolve_base_time clock now = Raise e -> e = ValueError.
Proof.
  unfold resolve_base_time. destruct now as [text|]; [|discriminate].
  destruct (_ =? _)%nat; [discriminate|].
  apply (bind_raises (fun x => x = ValueError)); [|discriminate].
  unfold datetime.strptime_HM. intros e'.
  destruct (split ":" text) as [|h [|m [|x t]]]; try now intros [= <-].
  destruct (datetime.hour_field h), (datetime.minute_field m);
    try discriminate; now intros [= <-].
Qed.

(** C8, as stated, fails: an id that is not an object id does not
    resolve to a line, and [compute_eta] raises [InvalidId] on it, which
    is not the 404 it raises for a well-formed id that names no line. *)
Lemma malformed_id_is_not_reported_not_found :
  ~ resolves example_db malformed_id
  /\ compute_eta example_clock example_db malformed_id 0 None
     = Raise InvalidId
  /\ compute_eta example_clock example_db malformed_id 0 None
     <> Raise NotFound
  /\ compute_eta example_clock example_db unknown_id 0 None = Raise NotFound.
Proof.
  split; [|split; [|split]].
  - intros (oid & doc & Hid & _). discriminate Hid.
  - reflexivity.
  - discriminate.
  - reflexivity.
Qed.

(** C8, amended. [compute_eta] raises the 404 "Line not found" exactly
    when the line id is one that [bson.ObjectId] accepts and that names
    no stored line; an id that [bson.ObjectId] refuses is never reported
    as not found. *)
Theorem not_found_iff_well_formed_and_absent
    (clock : datetime.t) (db : store) (line_id : string)
    (from_stop_index : Z) (now : option string) :
  compute_eta clock db line_id from_stop_index now = Raise NotFound
  <-> is_Some (bson_ObjectId line_id) /\ ~ resolves db line_id.
Proof.
  unfold compute_eta, find_one, resolves. split.
  - destruct (ObjectId line_id) as [oid|] eqn:Hid.
    + destruct (db !! oid) as [doc|] eqn:Hdoc.
      * destruct (Line.schedules doc); [discriminate|].
        intros H. exfalso.
        refine (bind_raises (fun x => x <> NotFound) _ _ _ _ _ H eq_refl).
        -- intros e' He ->. apply resolve_base_time_raises in He.
           discriminate.
        -- intros base e'.
           apply (bind_raises (fun x => x <> NotFound)); [|discriminate].
           intros e'' He ->. apply stops_loop_raises in He.
           destruct He; discriminate.
      * intros _. split.
        -- apply ObjectId_twelve_bytes in Hid as (bs & -> & _). now exists bs.
        -- intros (oid' & doc & [= <-] & Hd). congruence.
    + unfold no_key. destruct (bson_ObjectId line_id) as [bs|];
        [|discriminate].
      intros _. split; [now exists bs|].
      intros (oid' & doc & Ho & _). discriminate.
  - intros [[bs Hbs] Hno].
    destruct (ObjectId line_id) as [oid|] eqn:Hid.
    + destruct (db !! oid) as [doc|] eqn:Hdoc; [|reflexivity].
      exfalso. apply Hno. now exists oid, doc.
    + now rewrite (no_key_unmatched _ bs).
Qed.

Lemma not_found_iff_well_formed_and_absent_witness :
  compute_eta example_clock example_db unknown_id 0 None = Raise NotFound
  /\ compute_eta example_clock example_db spaced_id 0 None = Raise NotFound.
Proof.
  split.
  - apply (not_found_iff_well_formed_and_absent
             example_clock example_db unknown_id 0 None).
    split; [now eexists|].
    intros (oid & doc & [= <-] & Hd). discriminate Hd.
  - apply (not_found_iff_well_formed_and_absent
             example_clock example_db spaced_id 0 None).
    split; [now eexists|].
    intros (oid & doc & Ho & _). discriminate Ho.
Defined.

(** ** C10: the reference time does not show in the projection *)

Lemma bind_same_unless_overflow {A B} (r1 r2 : result A)
    (k1 k2 : A -> result B) :
  same_unless_overflow r1 r2 ->
  (forall a, same_unless_overflow (k1 a) (k2 a)) ->
  same_unless_overflow (bind r1 k1) (bind r2 k2).
Proof.
  intros [<- | [-> | ->]] Hk.
  - destruct r1 as [a|e]; simpl; [apply Hk | now left].
  - right. now left.
  - right. now right.
Qed.

Lemma resolve_base_time_valid (clock : datetime.t) (now : option string) :
  valid_now now = true ->
  exists base_time,
    resolve_base_time clock now = Ok base_time
    /\ datetime.ordinal base_time = datetime.ordinal clock.
Proof.
  unfold valid_now, resolve_base_time. destruct now as [text|].
  - destruct (_ =? _)%nat; simpl.
    + intros _. now exists clock.
    + destruct (datetime.strptime_HM text) as [time|e]; [|discriminate].
      intros _. simpl. eexists. split; reflexivity.
  - intros _. now exists clock.
Qed.

(** [compute_eta] returns a projection for a stored line whenever [now]
    is acceptable, the schedule entries are well formed and the
    cumulative offsets keep the date in range. *)
Lemma compute_eta_returns (clock : datetime.t) (db : store)
    (line_id : string) (from_stop_index : Z) (now : option string)
    (oid : N) (doc : Line.t) :
  ObjectId line_id = Some oid ->
  db !! oid = Some doc ->
  valid_now now = true ->
  Forall well_formed_dep (Line.schedules doc) ->
  Forall (keeps_date clock) (cumulative_trace 0 0 (Line.stops doc)) ->
  exists resp,
    compute_eta clock db line_id from_stop_index now = Ok resp.
Proof.
  intros Hid Hdoc Hnow Hs Ht. unfold compute_eta, find_one.
  rewrite Hid, Hdoc.
  destruct (Line.schedules doc) as [|d0 ds] eqn:E; [now eexists|].
  destruct (resolve_base_time_valid clock now Hnow) as (base & -> & Hb).
  simpl.
  assert (Ht' : Forall (keeps_date base)
                       (cumulative_trace 0 0 (Line.stops doc))).
  { eapply Forall_impl; [exact Ht|]. intros c. unfold keeps_date.
    now rewrite Hb. }
  destruct (stops_loop_returns base (d0 :: ds) (Line.stops doc) Hs 0%nat 0 Ht')
    as [l ->].
  simpl. now eexists.
Qed.

Section TwoReferenceTimes.
Variables base1 base2 : datetime.t.

(** The time of day of the reference never reaches an arrival: only
    its date does, and only through the range check. *)
Lemma arrival_two_bases (c : Z) (dep : string) :
  same_unless_overflow (arrival base1 c dep) (arrival base2 c dep).
Proof.
  unfold arrival. destruct (parse_dep dep) as [[hh mm]|e]; simpl;
    [|now left].
  unfold datetime.replace. destruct (negb _); [now left|].
  destruct (_ && _); [|now left]. simpl.
  unfold datetime.add_minutes. simpl.
  destruct (_ && _); [|right; now left].
  destruct (_ && _); [|right; now right].
  now left.
Qed.

Lemma arrivals_loop_two_bases (c : Z) (schedules : list string) :
  same_unless_overflow (arrivals_loop base1 c schedules)
                       (arrivals_loop base2 c schedules).
Proof.
  induction schedules as [|dep rest IH]; simpl; [now left|].
  apply bind_same_unless_overflow; [apply arrival_two_bases|]. intros a.
  apply bind_same_unless_overflow; [exact IH|]. intros r. now left.
Qed.

Lemma stops_loop_two_bases (schedules : list string)
    (stops : list Stop.t) :
  forall i c,
    same_unless_overflow (stops_loop base1 schedules i c stops)
                         (stops_loop base2 schedules i c stops).
Proof.
  induction stops as [|s rest IH]; intros i c; simpl; [now left|].
  apply bind_same_unless_overflow; [apply arrivals_loop_two_bases|].
  intros a. apply bind_same_unless_overflow; [apply IH|].
  intros l. now left.
Qed.

Hypothesis same_day : datetime.ordinal base1 = datetime.ordinal base2.

Lemma arrival_same_date (c : Z) (dep : string) :
  arrival base1 c dep = arrival base2 c dep.
Proof.
  unfold arrival, datetime.replace. now rewrite same_day.
Qed.

Lemma arrivals_loop_same_date (c : Z) (schedules : list string) :
  arrivals_loop base1 c schedules = arrivals_loop base2 c schedules.
Proof.
  induction schedules as [|dep rest IH]; simpl; [reflexivity|].
  now rewrite arrival_same_date, IH.
Qed.

Lemma stops_loop_same_date (schedules : list string)
    (stops : list Stop.t) :
  forall i c,
    stops_loop base1 schedules i c stops
    = stops_loop base2 schedules i c stops.
Proof.
  induction stops as [|s rest IH]; intros i c; simpl; [reflexivity|].
  rewrite arrivals_loop_same_date.
  destruct (arrivals_loop base2 _ _); simpl; [|reflexivity].
  now rewrite IH.
Qed.
End TwoReferenceTimes.

(** C10. For a fixed store, line id and [from_stop_index], two runs of
    [compute_eta] under any two clocks and any two reference times (each
    omitted, empty or a string [strptime] accepts) that both return a
    payload return the same payload; the two outcomes, exceptions
    included, can differ only when one of them is the [OverflowError] of
    a date out of range, and on the same calendar day they are equal. *)
Theorem projection_independent_of_reference_time
    (clock1 clock2 : datetime.t) (now1 now2 : option string)
    (db : store) (line_id : string) (from_stop_index : Z) :
  valid_now now1 = true ->
  valid_now now2 = true ->
  let r1 := compute_eta clock1 db line_id from_stop_index now1 in
  let r2 := compute_eta clock2 db line_id from_stop_index now2 in
  (forall p1 p2, r1 = Ok p1 -> r2 = Ok p2 -> p1 = p2)
  /\ same_unless_overflow r1 r2
  /\ (datetime.ordinal clock1 = datetime.ordinal clock2 -> r1 = r2).
Proof.
  intros H1 H2 r1 r2.
  destruct (resolve_base_time_valid clock1 now1 H1) as (b1 & Hb1 & Ho1).
  destruct (resolve_base_time_valid clock2 now2 H2) as (b2 & Hb2 & Ho2).
  assert (Hsame : same_unless_overflow r1 r2).
  { subst r1 r2. unfold compute_eta.
    destruct (ObjectId line_id) as [oid|]; [|now left].
    destruct (find_one db oid) as [doc|]; [|now left].
    destruct (Line.schedules doc) as [|d0 ds] eqn:Hs; [now left|].
    rewrite Hb1, Hb2. simpl.
    apply bind_same_unless_overflow; [apply stops_loop_two_bases|].
    intros l. now left. }
  split; [|split].
  - intros p1 p2 E1 E2. destruct Hsame as [E | [E | E]].
    + congruence.
    + rewrite E in E1. discriminate.
    + rewrite E in E2. discriminate.
  - exact Hsame.
  - intros Hday. subst r1 r2. unfold compute_eta.
    destruct (ObjectId line_id) as [oid|]; [|reflexivity].
    destruct (find_one db oid) as [doc|]; [|reflexivity].
    destruct (Line.schedules doc) as [|d0 ds] eqn:Hs; [reflexivity|].
    rewrite Hb1, Hb2. simpl.
    rewrite (stops_loop_same_date b1 b2) by congruence. reflexivity.
Qed.

Lemma projection_independent_of_reference_time_witness :
  (forall p1 p2,
      compute_eta example_clock example_db example_id 1 None = Ok p1 ->
      compute_eta another_clock example_db example_id 1 (Some "23:59"%string)
      = Ok p2 ->
      p1 = p2)
  /\ same_unless_overflow
       (compute_eta example_clock example_db example_id 1 None)
       (compute_eta another_clock example_db example_id 1
                    (Some "23:59"%string))
  /\ (datetime.ordinal example_clock = datetime.ordinal another_clock ->
      compute_eta example_clock example_db example_id 1 None
      = compute_eta another_clock example_db example_id 1
                    (Some "23:59"%string)).
Proof.
  apply (projection_independent_of_reference_time
           example_clock another_clock None (Some "23:59"%string)
           example_db example_id 1); reflexivity.
Defined.

(** The overflow case of the theorem does occur: the same line projects
    on one day and overflows the calendar on the next. *)
Lemma date_overflow_depends_on_the_day :
  compute_eta example_clock {[ 1%N := far_line ]} example_id 0 None
  = Ok {| etas :=
            [ {| stop := Some "A"%string; arrivals := ["07:30"%string] |};
              {| stop := Some "Z"%string; arrivals := ["07:30"%string] |} ] |}
  /\ compute_eta next_day_clock {[ 1%N := far_line ]} example_id 0 None
     = Raise OverflowError.
Proof. split; reflexivity. Qed.

(** * Further properties of the handlers *)

(** ** Object ids as strings *)

Lemma hex_val_bound (c : ascii) (d : N) :
  hex_val c = Some d -> (d < 16)%N.
Proof.
  unfold hex_val. generalize (nat_of_ascii c). intros n.
  repeat match goal with
         | |- context [if ?b then _ else _] =>
             let E := fresh "E" in
             destruct b eqn:E;
             [apply andb_true_iff in E as [H1 H2];
              apply Nat.leb_le in H1, H2; intros H; inversion H; lia
             | clear E]
         end.
  discriminate.
Qed.

Lemma hex_value_bound (l : list ascii) :
  forall acc v,
    hex_value acc l = Some v -> (v < (acc + 1) * 16 ^ N.of_nat (length l))%N.
Proof.
  induction l as [|c r IH]; intros acc v; simpl hex_value.
  - intros [= <-]. simpl. lia.
  - destruct (hex_val c) as [d|] eqn:Hd; [|discriminate].
    intros H. apply IH in H. apply hex_val_bound in Hd.
    change (length (c :: r)) with (S (length r)).
    rewrite Nat2N.inj_succ, N.pow_succ_r'.
    set (P := (16 ^ N.of_nat (length r))%N) in *. nia.
Qed.

Lemma hex_val_hex_char (d : N) :
  (d < 16)%N -> hex_val (hex_char d) = Some d.
Proof.
  intros Hd.
  assert (Hall : forallb (fun x =>
                            match hex_val (hex_char x) with
                            | Some y => N.eqb y x
                            | None => false
                            end)
                         (map N.of_nat (seq 0 16)) = true) by reflexivity.
  rewrite forallb_forall in Hall. specialize (Hall d).
  destruct (hex_val (hex_char d)) as [y|].
  - f_equal. apply N.eqb_eq, Hall. apply in_map_iff.
    exists (N.to_nat d). split; [lia|]. apply in_seq. lia.
  - assert (false = true); [|discriminate]. apply Hall, in_map_iff.
    exists (N.to_nat d). split; [lia|]. apply in_seq. lia.
Qed.

Lemma hex_digits_length (n : nat) :
  forall v acc, length (hex_digits n v acc) = (n + length acc)%nat.
Proof.
  induction n as [|n IH]; intros v acc; simpl; [reflexivity|].
  rewrite IH. simpl. lia.
Qed.

Lemma hex_value_digits (n : nat) :
  forall v acc rest,
    (v < 16 ^ N.of_nat n)%N ->
    hex_value acc (hex_digits n v rest)
    = hex_value (acc * 16 ^ N.of_nat n + v)%N rest.
Proof.
  induction n as [|n IH]; intros v acc rest Hv.
  - simpl in *. f_equal. lia.
  - rewrite Nat2N.inj_succ, N.pow_succ_r' in *.
    set (P := (16 ^ N.of_nat n)%N) in *.
    simpl hex_digits.
    assert (Hq : (v / 16 < P)%N) by (apply N.Div0.div_lt_upper_bound; lia).
    rewrite IH by exact Hq. simpl hex_value.
    rewrite hex_val_hex_char by (apply N.mod_lt; lia).
    f_equal. pose proof (N.div_mod v 16). lia.
Qed.

Lemma ObjectId_str_length (oid : N) :
  String.length (ObjectId_str oid) = 24%nat.
Proof.
  unfold ObjectId_str.
  assert (H : forall l, String.length (string_of_list_ascii l) = length l).
  { induction l as [|c l IH]; simpl; [reflexivity | now rewrite IH]. }
  rewrite H. apply hex_digits_length.
Qed.

(** Twelve bytes round-trip through their string form. *)
Lemma ObjectId_of_str (oid : N) :
  (oid < 16 ^ 24)%N -> ObjectId (ObjectId_str oid) = Some oid.
Proof.
  intros Hlt. unfold ObjectId. rewrite ObjectId_str_length.
  change (24 =? 24)%nat with true. cbv iota.
  unfold ObjectId_str, chars. rewrite list_ascii_of_string_of_list_ascii.
  rewrite (hex_value_digits 24 oid 0%N []) by exact Hlt.
  rewrite N.mul_0_l, N.add_0_l. reflexivity.
Qed.

Lemma ObjectId_range (line_id : string) (oid : N) :
  ObjectId line_id = Some oid -> (oid < 16 ^ 24)%N.
Proof.
  unfold ObjectId. destruct (_ =? _)%nat eqn:E; [|discriminate].
  intros H. apply hex_value_bound in H. rewrite chars_length in H.
  apply Nat.eqb_eq in E. rewrite E in H. exact H.
Qed.

(** ** Reading a line *)

(** The id [get_line] hands out is the canonical string of the object
    id, 24 characters long, and asking for it again returns the same
    public document, whatever spelling of the id the first request
    used. *)
Theorem get_line_id_fetches_same_document
    (db : store) (line_id : string) (p : PublicLine.t) :
  get_line db line_id = Ok p ->
  String.length (PublicLine.id p) = 24%nat
  /\ ObjectId (PublicLine.id p) = ObjectId line_id
  /\ get_line db (PublicLine.id p) = Ok p.
Proof.
  unfold get_line, find_one.
  destruct (ObjectId line_id) as [oid|] eqn:Hid;
    [|unfold no_key; destruct (bson_ObjectId line_id); discriminate].
  destruct (db !! oid) as [doc|] eqn:Hdoc; [|discriminate].
  intros [= <-]. unfold _to_public. cbn [PublicLine.id].
  pose proof (ObjectId_of_str oid (ObjectId_range _ _ Hid)) as Hrt.
  split; [apply ObjectId_str_length|]. split; [exact Hrt|].
  rewrite Hrt, Hdoc. reflexivity.
Qed.

Lemma get_line_id_fetches_same_document_witness :
  String.length "00000000000000000000000a" = 24%nat
  /\ ObjectId "00000000000000000000000a" = ObjectId "00000000000000000000000A"
  /\ get_line {[ 10%N := example_line ]} "00000000000000000000000a"
     = Ok (PublicLine.mk "00000000000000000000000a" example_line).
Proof.
  apply (get_line_id_fetches_same_document
           {[ 10%N := example_line ]} "00000000000000000000000A"
           (PublicLine.mk "00000000000000000000000a" example_line)).
  reflexivity.
Defined.

(** ** The line id across the handlers *)

Lemma update_one_missing (db : store) (oid : N) (update : Line.t -> Line.t) :
  db !! oid = None -> update_one db oid update = (db, 0).
Proof. intros H. unfold update_one. now rewrite H. Qed.

Lemma update_one_other (db : store) (oid other : N)
    (update : Line.t -> Line.t) :
  other <> oid -> fst (update_one db oid update) !! other = db !! other.
Proof.
  intros Hne. unfold update_one. destruct (db !! oid); simpl; [|reflexivity].
  now rewrite lookup_insert_ne.
Qed.

Lemma update_one_dom (db : store) (oid : N) (update : Line.t -> Line.t) :
  dom (fst (update_one db oid update)) = dom db.
Proof.
  unfold update_one. destruct (db !! oid) as [doc|] eqn:E; simpl;
    [|reflexivity].
  apply dom_insert_lookup_L. now exists doc.
Qed.

(** A line id that [bson.ObjectId] refuses: [get_line], [add_stop] and
    [set_schedules] answer 400 "Invalid line id"; [edit_stop] and
    [delete_stop], which build the object id outside any [try], let
    [InvalidId] escape. None of them touches the store. *)
Theorem malformed_id_across_handlers
    (db : store) (line_id : string) (stop : StopInput.t)
    (patch : StopPatch.t) (del : StopDelete.t) (payload : SchedulePayload.t) :
  bson_ObjectId line_id = None ->
  get_line db line_id = Raise (HTTPException 400 "Invalid line id")
  /\ add_stop db line_id stop
     = (Raise (HTTPException 400 "Invalid line id"), db)
  /\ set_schedules db line_id payload
     = (Raise (HTTPException 400 "Invalid line id"), db)
  /\ edit_stop db line_id patch = (Raise InvalidId, db)
  /\ delete_stop db line_id del = (Raise InvalidId, db).
Proof.
  intros H. unfold get_line, add_stop, set_schedules, edit_stop, delete_stop.
  rewrite (ObjectId_invalid _ H), !(no_key_invalid _ _ _ H). repeat split.
Qed.

Lemma malformed_id_across_handlers_witness :
  get_line example_db malformed_id
  = Raise (HTTPException 400 "Invalid line id")
  /\ add_stop example_db malformed_id (StopInput.mk "D" None None 3)
     = (Raise (HTTPException 400 "Invalid line id"), example_db)
  /\ set_schedules example_db malformed_id morning
     = (Raise (HTTPException 400 "Invalid line id"), example_db)
  /\ edit_stop example_db malformed_id rename_centro
     = (Raise InvalidId, example_db)
  /\ delete_stop example_db malformed_id (StopDelete.mk 0)
     = (Raise InvalidId, example_db).
Proof.
  apply (malformed_id_across_handlers
           example_db malformed_id (StopInput.mk "D" None None 3)
           rename_centro (StopDelete.mk 0) morning).
  reflexivity.
Defined.

(** A well-formed id that names no stored line: [get_line], [add_stop],
    [edit_stop] and [delete_stop] all answer 404 "Line not found",
    whatever the stop, patch or index, and leave the store as it was. *)
Theorem absent_line_is_404
    (db : store) (line_id : string) (oid : N) (stop : StopInput.t)
    (patch : StopPatch.t) (del : StopDelete.t) :
  ObjectId line_id = Some oid ->
  db !! oid = None ->
  get_line db line_id = Raise (HTTPException 404 "Line not found")
  /\ add_stop db line_id stop
     = (Raise (HTTPException 404 "Line not found"), db)
  /\ edit_stop db line_id patch
     = (Raise (HTTPException 404 "Line not found"), db)
  /\ delete_stop db line_id del
     = (Raise (HTTPException 404 "Line not found"), db).
Proof.
  intros Hid Hdoc.
  unfold get_line, add_stop, edit_stop, delete_stop, find_one.
  rewrite Hid, Hdoc, (update_one_missing _ _ _ Hdoc). repeat split.
Qed.

Lemma absent_line_is_404_witness :
  get_line example_db unknown_id
  = Raise (HTTPException 404 "Line not found")
  /\ add_stop example_db unknown_id (StopInput.mk "D" None None 3)
     = (Raise (HTTPException 404 "Line not found"), example_db)
  /\ edit_stop example_db unknown_id patch_out_of_range
     = (Raise (HTTPException 404 "Line not found"), example_db)
  /\ delete_stop example_db unknown_id (StopDelete.mk (-1))
     = (Raise (HTTPException 404 "Line not found"), example_db).
Proof.
  apply (absent_line_is_404
           example_db unknown_id 2%N (StopInput.mk "D" None None 3)
           patch_out_of_range (StopDelete.mk (-1))); reflexivity.
Defined.

(** A line id of 24 characters in which white space takes the place of
    some digits: [bson.ObjectId] builds an id of fewer than twelve bytes,
    no document has it, and the handlers answer as for any line that does
    not exist: 404 from [get_line], [add_stop], [edit_stop],
    [delete_stop] and [compute_eta], and [{"ok": True}] from
    [set_schedules]; the store is unchanged. *)
Theorem short_id_matches_nothing
    (clock : datetime.t) (db : store) (line_id : string) (bytes : list N)
    (input : StopInput.t) (patch : StopPatch.t) (del : StopDelete.t)
    (payload : SchedulePayload.t) (from_stop_index : Z)
    (now : option string) :
  bson_ObjectId line_id = Some bytes ->
  (length bytes < 12)%nat ->
  get_line db line_id = Raise (HTTPException 404 "Line not found")
  /\ add_stop db line_id input
     = (Raise (HTTPException 404 "Line not found"), db)
  /\ edit_stop db line_id patch
     = (Raise (HTTPException 404 "Line not found"), db)
  /\ delete_stop db line_id del
     = (Raise (HTTPException 404 "Line not found"), db)
  /\ compute_eta clock db line_id from_stop_index now
     = Raise (HTTPException 404 "Line not found")
  /\ set_schedules db line_id payload = (Ok ok_true, db).
Proof.
  intros Hb Hlen.
  assert (Hid : ObjectId line_id = None).
  { destruct (ObjectId line_id) as [oid|] eqn:E; [|reflexivity].
    apply ObjectId_twelve_bytes in E as (bs & Hbs & Hl & _).
    rewrite Hb in Hbs. injection Hbs as <-. lia. }
  unfold get_line, add_stop, edit_stop, delete_stop, compute_eta,
    set_schedules.
  rewrite Hid, !(no_key_unmatched _ bytes _ _ Hb). repeat split.
Qed.

Lemma short_id_matches_nothing_witness :
  get_line example_db spaced_id = Raise (HTTPException 404 "Line not found")
  /\ add_stop example_db spaced_id (StopInput.mk "D" None None 3)
     = (Raise (HTTPException 404 "Line not found"), example_db)
  /\ edit_stop example_db spaced_id rename_centro
     = (Raise (HTTPException 404 "Line not found"), example_db)
  /\ delete_stop example_db spaced_id (StopDelete.mk 0)
     = (Raise (HTTPException 404 "Line not found"), example_db)
  /\ compute_eta example_clock example_db spaced_id 0 None
     = Raise (HTTPException 404 "Line not found")
  /\ set_schedules example_db spaced_id morning = (Ok ok_true, example_db).
Proof.
  apply (short_id_matches_nothing
           example_clock example_db spaced_id [0; 0; 0; 0; 0; 0; 0; 0; 0; 1]%N
           (StopInput.mk "D" None None 3) rename_centro (StopDelete.mk 0)
           morning 0 None).
  - reflexivity.
  - simpl. lia.
Defined.

(** ** What a mutation leaves alone *)

(** A mutation that raises has not changed the store: there is no
    partial update. *)
Theorem failed_mutation_leaves_store
    (db : store) (line_id : string) (e : exn) :
  (forall stop, fst (add_stop db line_id stop) = Raise e ->
                snd (add_stop db line_id stop) = db)
  /\ (forall body, fst (post_stop db line_id body) = Raise e ->
                   snd (post_stop db line_id body) = db)
  /\ (forall patch, fst (edit_stop db line_id patch) = Raise e ->
                    snd (edit_stop db line_id patch) = db)
  /\ (forall del, fst (delete_stop db line_id del) = Raise e ->
                  snd (delete_stop db line_id del) = db)
  /\ (forall payload, fst (set_schedules db line_id payload) = Raise e ->
                      snd (set_schedules db line_id payload) = db).
Proof.
  assert (Hadd : forall stop, fst (add_stop db line_id stop) = Raise e ->
                              snd (add_stop db line_id stop) = db).
  { intros stop. unfold add_stop, update_one.
    destruct (ObjectId line_id) as [oid|];
      [|unfold no_key; destruct (bson_ObjectId line_id); reflexivity].
    destruct (db !! oid); simpl; [discriminate | reflexivity]. }
  split; [exact Hadd|]. split; [|split; [|split]].
  - intros body. unfold post_stop.
    destruct (StopInput.validate body); [apply Hadd | reflexivity].
  - intros patch. unfold edit_stop, find_one.
    destruct (ObjectId line_id) as [oid|];
      [|unfold no_key; destruct (bson_ObjectId line_id); reflexivity].
    destruct (db !! oid) as [doc|]; [|reflexivity].
    destruct (_ || _); [reflexivity|].
    destruct (_ !! _); [discriminate | reflexivity].
  - intros del. unfold delete_stop, find_one.
    destruct (ObjectId line_id) as [oid|];
      [|unfold no_key; destruct (bson_ObjectId line_id); reflexivity].
    destruct (db !! oid) as [doc|]; [|reflexivity].
    destruct (_ || _); [reflexivity | discriminate].
  - intros payload. unfold set_schedules.
    destruct (ObjectId line_id) as [oid|];
      [discriminate | unfold no_key; destruct (bson_ObjectId line_id); reflexivity].
Qed.

Lemma failed_mutation_leaves_store_witness :
  snd (edit_stop example_db example_id patch_out_of_range) = example_db
  /\ snd (post_stop example_db example_id
                    (Stop.mk None None None None (Some 4))) = example_db.
Proof.
  split.
  - apply (proj1 (proj2 (proj2 (failed_mutation_leaves_store
                                  example_db example_id InvalidIndex)))).
    reflexivity.
  - apply (proj1 (proj2 (failed_mutation_leaves_store
                           example_db example_id ValidationError))).
    reflexivity.
Defined.

(** No mutation creates or removes a line: the set of stored ids is the
    same after every request, successful or not. *)
Theorem mutations_keep_the_stored_ids
    (db : store) (line_id : string) (stop : StopInput.t)
    (patch : StopPatch.t) (del : StopDelete.t) (payload : SchedulePayload.t) :
  dom (snd (add_stop db line_id stop)) = dom db
  /\ dom (snd (edit_stop db line_id patch)) = dom db
  /\ dom (snd (delete_stop db line_id del)) = dom db
  /\ dom (snd (set_schedules db line_id payload)) = dom db.
Proof.
  unfold add_stop, edit_stop, delete_stop, set_schedules, find_one.
  destruct (ObjectId line_id) as [oid|];
    [|unfold no_key; destruct (bson_ObjectId line_id); repeat split].
  split; [|split; [|split]].
  - pose proof (update_one_dom db oid
                  (Line.push_stop (StopInput.model_dump stop))) as H.
    destruct (update_one _ _ _) as [db' n]. simpl in H.
    destruct (n =? 0); exact H.
  - destruct (db !! oid) as [doc|]; [|reflexivity].
    destruct (_ || _); [reflexivity|].
    destruct (_ !! _); [apply update_one_dom | reflexivity].
  - destruct (db !! oid) as [doc|]; [|reflexivity].
    destruct (_ || _); [reflexivity | apply update_one_dom].
  - apply update_one_dom.
Qed.

(** A mutation addressed to one line leaves every other line as it
    was. *)
Theorem mutations_keep_other_lines
    (db : store) (line_id : string) (other : N) (stop : StopInput.t)
    (patch : StopPatch.t) (del : StopDelete.t) (payload : SchedulePayload.t) :
  ObjectId line_id <> Some other ->
  snd (add_stop db line_id stop) !! other = db !! other
  /\ snd (edit_stop db line_id patch) !! other = db !! other
  /\ snd (delete_stop db line_id del) !! other = db !! other
  /\ snd (set_schedules db line_id payload) !! other = db !! other.
Proof.
  intros Hne.
  unfold add_stop, edit_stop, delete_stop, set_schedules, find_one.
  destruct (ObjectId line_id) as [oid|];
    [|unfold no_key; destruct (bson_ObjectId line_id); repeat split].
  assert (Hoid : other <> oid) by congruence.
  split; [|split; [|split]].
  - pose proof (update_one_other db oid other
                  (Line.push_stop (StopInput.model_dump stop)) Hoid) as H.
    destruct (update_one _ _ _) as [db' n]. simpl in H.
    destruct (n =? 0); exact H.
  - destruct (db !! oid) as [doc|]; [|reflexivity].
    destruct (_ || _); [reflexivity|].
    destruct (Line.stops doc !! _); [now apply update_one_other | reflexivity].
  - destruct (db !! oid) as [doc|]; [|reflexivity].
    destruct (_ || _); [reflexivity | now apply update_one_other].
  - now apply update_one_other.
Qed.

Lemma mutations_keep_other_lines_witness :
  snd (add_stop two_line_db example_id (StopInput.mk "D" None None 3)) !! 2%N
  = two_line_db !! 2%N
  /\ snd (edit_stop two_line_db example_id rename_centro) !! 2%N
     = two_line_db !! 2%N
  /\ snd (delete_stop two_line_db example_id (StopDelete.mk 0)) !! 2%N
     = two_line_db !! 2%N
  /\ snd (set_schedules two_line_db example_id morning) !! 2%N
     = two_line_db !! 2%N.
Proof.
  apply (mutations_keep_other_lines
           two_line_db example_id 2%N
           (StopInput.mk "D" None None 3) rename_centro (StopDelete.mk 0)
           morning).
  discriminate.
Defined.

(** ** Appending, and how the mutations compose *)

Lemma set_stops_same (d : Line.t) : Line.set_stops (Line.stops d) d = d.
Proof. now destruct d. Qed.

Lemma set_schedules_same (d : Line.t) :
  Line.set_schedules (Line.schedules d) d = d.
Proof. now destruct d. Qed.

Lemma add_stop_found (db : store) (line_id : string) (oid : N)
    (doc : Line.t) (stop : StopInput.t) :
  ObjectId line_id = Some oid ->
  db !! oid = Some doc ->
  add_stop db line_id stop
  = (Ok ok_true,
     <[oid := Line.push_stop (StopInput.model_dump stop) doc]> db).
Proof.
  intros Hid Hdoc. unfold add_stop, update_one. now rewrite Hid, Hdoc.
Qed.

(** On a stored line [add_stop] succeeds and the line has one stop more:
    the stops it had keep their indices and the new one, holding the
    four members of the request and no [id], comes last; the other
    members of the line are as before. *)
Theorem add_stop_appends_last
    (db : store) (line_id : string) (oid : N) (doc : Line.t)
    (stop : StopInput.t) :
  ObjectId line_id = Some oid ->
  db !! oid = Some doc ->
  exists db' doc' new,
    add_stop db line_id stop = (Ok ok_true, db')
    /\ db' !! oid = Some doc'
    /\ same_but_stops doc doc'
    /\ length (Line.stops doc') = S (length (Line.stops doc))
    /\ (forall j, (j < length (Line.stops doc))%nat ->
          Line.stops doc' !! j = Line.stops doc !! j)
    /\ Line.stops doc' !! length (Line.stops doc) = Some new
    /\ Stop.id new = None
    /\ Stop.name new = Some (StopInput.name stop)
    /\ Stop.lat new = StopInput.lat stop
    /\ Stop.lng new = StopInput.lng stop
    /\ Stop.travel_minutes_from_prev new
       = Some (StopInput.travel_minutes_from_prev stop).
Proof.
  intros Hid Hdoc. rewrite (add_stop_found _ _ _ _ _ Hid Hdoc).
  eexists _, _, (StopInput.model_dump stop). split; [reflexivity|].
  split; [apply lookup_insert_eq|].
  split; [repeat split|]. simpl.
  split; [rewrite length_app; simpl; lia|].
  split; [intros j Hj; now apply lookup_app_l|].
  split; [apply list_lookup_middle; reflexivity|].
  repeat split.
Qed.

Lemma add_stop_appends_last_witness :
  exists db' doc' new,
    add_stop example_db example_id (StopInput.mk "D" None None (-2))
    = (Ok ok_true, db')
    /\ db' !! 1%N = Some doc'
    /\ length (Line.stops doc') = 4%nat
    /\ Line.stops doc' !! 3%nat = Some new
    /\ Stop.travel_minutes_from_prev new = Some (-2).
Proof.
  destruct (add_stop_appends_last
              example_db example_id 1%N example_line
              (StopInput.mk "D" None None (-2)) eq_refl eq_refl)
    as (db' & doc' & new & H1 & H2 & _ & H4 & _ & H6 & _ & _ & _ & _ & H11).
  exists db', doc', new. repeat split; assumption.
Defined.

(** Deleting at the index of the stop just appended undoes [add_stop]:
    the store is the one before the two requests. *)
Theorem delete_last_undoes_add
    (db : store) (line_id : string) (oid : N) (doc : Line.t)
    (stop : StopInput.t) :
  ObjectId line_id = Some oid ->
  db !! oid = Some doc ->
  delete_stop (snd (add_stop db line_id stop)) line_id
              (StopDelete.mk (Z.of_nat (length (Line.stops doc))))
  = (Ok ok_true, db).
Proof.
  intros Hid Hdoc. rewrite (add_stop_found _ _ _ _ _ Hid Hdoc). simpl.
  unfold delete_stop, find_one. rewrite Hid, lookup_insert_eq. simpl.
  rewrite length_app. simpl.
  destruct ((_ <? 0) || (_ <=? _)) eqn:E.
  { apply orb_true_iff in E as [E|E];
      [apply Z.ltb_lt in E | apply Z.leb_le in E]; lia. }
  rewrite Nat2Z.id, (delete_middle (Line.stops doc) []), app_nil_r.
  unfold update_one. rewrite lookup_insert_eq. simpl.
  rewrite insert_insert_eq. unfold Line.set_stops, Line.push_stop. simpl.
  f_equal. apply insert_id. rewrite Hdoc. f_equal. now destruct doc.
Qed.

Lemma delete_last_undoes_add_witness :
  delete_stop (snd (add_stop example_db example_id
                             (StopInput.mk "D" None None 3)))
              example_id (StopDelete.mk 3)
  = (Ok ok_true, example_db).
Proof.
  apply (delete_last_undoes_add
           example_db example_id 1%N example_line
           (StopInput.mk "D" None None 3)); reflexivity.
Defined.

Lemma apply_patch_twice (patch : StopPatch.t) (s : Stop.t) :
  apply_patch patch (apply_patch patch s) = apply_patch patch s.
Proof.
  destruct patch as [i [n|] [la|] [ln|] [m|]]; reflexivity.
Qed.

Lemma apply_patch_nothing (index : Z) (s : Stop.t) :
  apply_patch (StopPatch.mk index None None None None) s = s.
Proof. now destruct s. Qed.

(** Sending the same patch a second time changes nothing more: the
    response and the store are those of the first request. *)
Theorem edit_stop_twice_is_once
    (db : store) (line_id : string) (patch : StopPatch.t) :
  edit_stop (snd (edit_stop db line_id patch)) line_id patch
  = edit_stop db line_id patch.
Proof.
  unfold edit_stop at 2 3. unfold find_one.
  destruct (ObjectId line_id) as [oid|] eqn:Hid;
    [|unfold no_key; destruct (bson_ObjectId line_id) eqn:Hb; simpl;
      unfold edit_stop, no_key; now rewrite Hid, Hb].
  destruct (db !! oid) as [doc|] eqn:Hdoc;
    [|simpl; unfold edit_stop, find_one; now rewrite Hid, Hdoc].
  destruct ((_ <? 0) || (_ <=? _)) eqn:Hi;
    [simpl; unfold edit_stop, find_one; now rewrite Hid, Hdoc, Hi|].
  destruct (Line.stops doc !! _) as [s|] eqn:Hs;
    [|simpl; unfold edit_stop, find_one; now rewrite Hid, Hdoc, Hi, Hs].
  rewrite (update_one_found _ _ _ _ Hdoc). simpl.
  unfold edit_stop, find_one. rewrite Hid, lookup_insert_eq. simpl.
  rewrite length_insert, Hi.
  rewrite list_lookup_insert_eq by (eapply lookup_lt_Some, Hs).
  rewrite apply_patch_twice, list_insert_insert_eq.
  unfold update_one. rewrite lookup_insert_eq. simpl.
  now rewrite insert_insert_eq.
Qed.

(** A patch that gives no member changes nothing, whatever the line id
    and the index are. *)
Theorem empty_patch_changes_nothing
    (db : store) (line_id : string) (index : Z) :
  snd (edit_stop db line_id (StopPatch.mk index None None None None)) = db.
Proof.
  unfold edit_stop, find_one.
  destruct (ObjectId line_id) as [oid|];
    [|unfold no_key; destruct (bson_ObjectId line_id); reflexivity].
  destruct (db !! oid) as [doc|] eqn:Hdoc; [|reflexivity].
  destruct (_ || _); [reflexivity|]. simpl.
  destruct (Line.stops doc !! _) as [s|] eqn:Hs; [|reflexivity].
  rewrite (update_one_found _ _ _ _ Hdoc), apply_patch_nothing.
  rewrite (list_insert_id _ _ _ Hs), set_stops_same.
  now apply insert_id.
Qed.

(** Of two successive [set_schedules] on the same id the last one wins:
    nothing of the first payload is left. *)
Theorem set_schedules_last_write_wins
    (db : store) (line_id : string) (first last : SchedulePayload.t) :
  set_schedules (snd (set_schedules db line_id first)) line_id last
  = set_schedules db line_id last.
Proof.
  unfold set_schedules, update_one.
  destruct (ObjectId line_id) as [oid|]; simpl;
    [|unfold no_key; destruct (bson_ObjectId line_id); reflexivity].
  destruct (db !! oid) as [doc|] eqn:Hdoc; simpl.
  - rewrite lookup_insert_eq. simpl. now rewrite insert_insert_eq.
  - now rewrite Hdoc.
Qed.

(** The schedule list and the stop list are independent: replacing the
    schedules before or after a stop mutation gives the same store, and
    the stop mutation answers the same. *)
Theorem schedules_and_stops_commute
    (db : store) (line_id : string) (payload : SchedulePayload.t)
    (stop : StopInput.t) (patch : StopPatch.t) (del : StopDelete.t) :
  let db_s := snd (set_schedules db line_id payload) in
  (add_stop db_s line_id stop
   = (fst (add_stop db line_id stop),
      snd (set_schedules (snd (add_stop db line_id stop)) line_id payload)))
  /\ (edit_stop db_s line_id patch
      = (fst (edit_stop db line_id patch),
         snd (set_schedules (snd (edit_stop db line_id patch))
                            line_id payload)))
  /\ (delete_stop db_s line_id del
      = (fst (delete_stop db line_id del),
         snd (set_schedules (snd (delete_stop db line_id del))
                            line_id payload))).
Proof.
  unfold set_schedules, add_stop, edit_stop, delete_stop, find_one, update_one.
  destruct (ObjectId line_id) as [oid|]; simpl;
    [|unfold no_key; destruct (bson_ObjectId line_id); repeat split].
  destruct (db !! oid) as [doc|] eqn:Hdoc; simpl; rewrite ?Hdoc; simpl;
    [|repeat split].
  split; [|split].
  - rewrite !lookup_insert_eq. simpl. now rewrite !insert_insert_eq.
  - rewrite !lookup_insert_eq. simpl.
    destruct (_ || _); simpl; [now rewrite Hdoc|].
    destruct (Line.stops doc !! _) as [s|]; simpl; [|now rewrite Hdoc].
    rewrite !lookup_insert_eq. simpl. now rewrite !insert_insert_eq.
  - rewrite !lookup_insert_eq. simpl.
    destruct (_ || _); simpl; [now rewrite Hdoc|].
    rewrite !lookup_insert_eq. simpl. now rewrite !insert_insert_eq.
Qed.

(** ** The ETA projector: when it fails and what it returns *)

(** Every exception of [compute_eta] is one of four: [InvalidId] for an
    id that [bson.ObjectId] refuses, the 404 for an id it accepts that
    names no stored line, and, for a stored line, [ValueError] or
    [OverflowError]; in particular it never raises a 400 or an
    [IndexError]. *)
Theorem compute_eta_exceptions
    (clock : datetime.t) (db : store) (line_id : string)
    (from_stop_index : Z) (now : option string) (e : exn) :
  compute_eta clock db line_id from_stop_index now = Raise e ->
  (e = InvalidId /\ bson_ObjectId line_id = None)
  \/ (e = HTTPException 404 "Line not found"
      /\ is_Some (bson_ObjectId line_id) /\ ~ resolves db line_id)
  \/ ((e = ValueError \/ e = OverflowError) /\ resolves db line_id).
Proof.
  unfold compute_eta, find_one, resolves.
  destruct (ObjectId line_id) as [oid|] eqn:Hid.
  - destruct (db !! oid) as [doc|] eqn:Hdoc.
    + intros H. right. right. split; [|now exists oid, doc].
      destruct (Line.schedules doc); [discriminate|]. revert H.
      apply (bind_raises projection_error).
      * intros e' He. left. eapply resolve_base_time_raises, He.
      * intros base e'.
        apply (bind_raises projection_error); [|discriminate].
        intros e''. apply stops_loop_raises.
    + intros [= <-]. right. left. split; [reflexivity|]. split.
      * apply ObjectId_twelve_bytes in Hid as (bs & -> & _). now exists bs.
      * intros (oid' & doc & [= <-] & Hd). congruence.
  - unfold no_key. destruct (bson_ObjectId line_id) as [bs|] eqn:Hb.
    + intros [= <-]. right. left. split; [reflexivity|].
      split; [now exists bs|]. intros (oid' & doc & Ho & _). discriminate.
    + intros [= <-]. left. now split.
Qed.

Lemma compute_eta_exceptions_witness :
  (HTTPException 404 "Line not found" = InvalidId
   /\ bson_ObjectId spaced_id = None)
  \/ (HTTPException 404 "Line not found"
      = HTTPException 404 "Line not found"
      /\ is_Some (bson_ObjectId spaced_id)
      /\ ~ resolves example_db spaced_id)
  \/ ((HTTPException 404 "Line not found" = ValueError
       \/ HTTPException 404 "Line not found" = OverflowError)
      /\ resolves example_db spaced_id).
Proof.
  apply (compute_eta_exceptions
           example_clock example_db spaced_id 0 None
           (HTTPException 404 "Line not found")).
  reflexivity.
Defined.

Lemma arrivals_loop_well_formed (base_time : datetime.t) (c : Z)
    (schedules : list string) :
  forall l,
    arrivals_loop base_time c schedules = Ok l ->
    Forall well_formed_dep schedules.
Proof.
  induction schedules as [|dep rest IH]; intros l H; [constructor|].
  simpl in H.
  destruct (arrival _ _ dep) as [a|e] eqn:A; simpl in H; [|discriminate].
  destruct (arrivals_loop _ _ rest) as [tl|e]; simpl in H; [|discriminate].
  constructor; [|eapply IH; reflexivity].
  destruct (arrival_ok _ _ _ _ A) as (hh & mm & Hp & Hh & Hm & _).
  now exists hh, mm.
Qed.

(** The schedule entries are not checked when they are stored, but for a
    line with at least one stop [compute_eta] returns a projection only
    if every entry reads as an hour from 0 to 23 and a minute from 0 to
    59: one bad entry fails the whole request. *)
Theorem projection_needs_well_formed_schedules
    (clock : datetime.t) (db : store) (line_id : string)
    (from_stop_index : Z) (now : option string)
    (oid : N) (doc : Line.t) (resp : EtaResponse) :
  ObjectId line_id = Some oid ->
  db !! oid = Some doc ->
  Line.stops doc <> [] ->
  compute_eta clock db line_id from_stop_index now = Ok resp ->
  Forall well_formed_dep (Line.schedules doc).
Proof.
  intros Hid Hdoc Hstops. unfold compute_eta, find_one. rewrite Hid, Hdoc.
  destruct (Line.schedules doc) as [|d0 ds]; [constructor|].
  destruct (resolve_base_time clock now) as [base|e]; simpl; [|discriminate].
  destruct (Line.stops doc) as [|s rest]; [congruence|]. cbn [stops_loop].
  destruct (arrivals_loop _ _ (d0 :: ds)) as [a|e] eqn:A;
    [|discriminate].
  intros _. eapply arrivals_loop_well_formed, A.
Qed.

Lemma projection_needs_well_formed_schedules_witness :
  Forall well_formed_dep (Line.schedules example_line).
Proof.
  apply (projection_needs_well_formed_schedules
           example_clock example_db example_id 0 None 1%N example_line
           example_projection);
    [reflexivity | reflexivity | discriminate | reflexivity].
Defined.

(** For a line without stops the schedule entries are never read: with
    an acceptable [now] the projection is empty even if the entries are
    not times at all. *)
Theorem no_stops_empty_projection
    (clock : datetime.t) (db : store) (line_id : string)
    (from_stop_index : Z) (now : option string) (oid : N) (doc : Line.t) :
  ObjectId line_id = Some oid ->
  db !! oid = Some doc ->
  Line.stops doc = [] ->
  valid_now now = true ->
  compute_eta clock db line_id from_stop_index now = Ok {| etas := [] |}.
Proof.
  intros Hid Hdoc Hstops Hnow. unfold compute_eta, find_one.
  rewrite Hid, Hdoc, Hstops.
  destruct (Line.schedules doc); [reflexivity|].
  destruct (resolve_base_time_valid clock now Hnow) as (base & -> & _).
  simpl. f_equal. f_equal. unfold focus.
  destruct (_ && _); [apply drop_nil | reflexivity].
Qed.

Lemma no_stops_empty_projection_witness :
  compute_eta example_clock {[ 1%N := stopless_line ]} example_id 4
              (Some "9:5"%string)
  = Ok {| etas := [] |}.
Proof.
  apply (no_stops_empty_projection
           example_clock {[ 1%N := stopless_line ]} example_id 4
           (Some "9:5"%string) 1%N stopless_line); reflexivity.
Defined.

(** With a non-empty schedule list a returned projection has one entry
    per stop from the first stop shown on: all of them for a
    [from_stop_index] out of range, and never none. *)
Theorem projection_size
    (clock : datetime.t) (db : store) (line_id : string)
    (from_stop_index : Z) (now : option string)
    (oid : N) (doc : Line.t) (resp : EtaResponse) :
  ObjectId line_id = Some oid ->
  db !! oid = Some doc ->
  Line.schedules doc <> [] ->
  compute_eta clock db line_id from_stop_index now = Ok resp ->
  length (etas resp)
  = (length (Line.stops doc)
     - first_stop from_stop_index (Line.stops doc))%nat
  /\ (Line.stops doc <> [] -> etas resp <> []).
Proof.
  intros Hid Hdoc Hs. unfold compute_eta, find_one. rewrite Hid, Hdoc.
  destruct (Line.schedules doc) as [|d0 ds]; [congruence|].
  destruct (resolve_base_time clock now) as [base|e]; simpl; [|discriminate].
  destruct (stops_loop _ _ _ _ _) as [l|e] eqn:L; simpl; [|discriminate].
  intros [= <-]. simpl. apply stops_loop_length in L.
  assert (Hlen : length (focus from_stop_index l)
                 = (length (Line.stops doc)
                    - first_stop from_stop_index (Line.stops doc))%nat).
  { unfold focus, first_stop. rewrite L.
    destruct (_ && _); [rewrite length_drop|]; lia. }
  split; [exact Hlen|].
  intros Hne Hnil. rewrite Hnil in Hlen. simpl in Hlen.
  unfold first_stop in Hlen.
  destruct (Line.stops doc) as [|s rest]; [congruence|]. simpl in Hlen.
  destruct ((0 <=? from_stop_index) && _) eqn:E; [|lia].
  apply andb_true_iff in E as [E1 E2].
  apply Z.leb_le in E1. apply Z.ltb_lt in E2. lia.
Qed.

Lemma projection_size_witness :
  length (etas {| etas := drop 2 (etas example_projection) |}) = (3 - 2)%nat
  /\ (Line.stops example_line <> [] ->
      etas {| etas := drop 2 (etas example_projection) |} <> []).
Proof.
  apply (projection_size
           example_clock example_db example_id 2 None 1%N example_line
           {| etas := drop 2 (etas example_projection) |});
    [reflexivity | reflexivity | discriminate | reflexivity].
Defined.

(** Every arrival string of a returned projection is itself a well-formed
    schedule entry, two digits for the hour and two for the minute, and
    reads back as the hour and minute it shows. *)
Theorem arrivals_read_back_as_times
    (clock : datetime.t) (db : store) (line_id : string)
    (from_stop_index : Z) (now : option string) (resp : EtaResponse) :
  compute_eta clock db line_id from_stop_index now = Ok resp ->
  forall p e j a,
    etas resp !! p = Some e ->
    arrivals e !! j = Some a ->
    exists hh mm,
      0 <= hh <= 23 /\ 0 <= mm <= 59
      /\ a = render_minutes (60 * hh + mm)
      /\ String.length a = 5%nat
      /\ parse_dep a = Ok (hh, mm).
Proof.
  unfold compute_eta, find_one.
  destruct (ObjectId line_id) as [oid|];
    [|unfold no_key; destruct (bson_ObjectId line_id); discriminate].
  destruct (db !! oid) as [doc|]; [|discriminate].
  destruct (Line.schedules doc) as [|d0 ds].
  { intros [= <-] p e j a Hp. simpl in Hp. rewrite lookup_nil in Hp.
    discriminate. }
  destruct (resolve_base_time clock now) as [base|err]; simpl; [|discriminate].
  destruct (stops_loop _ _ _ _ _) as [l|err] eqn:L; simpl; [|discriminate].
  intros [= <-] p e j a Hp Hj. simpl in Hp.
  rewrite (focus_lookup _ (Line.stops doc)) in Hp
    by (eapply stops_loop_length, L).
  destruct (stops_loop_lookup _ _ _ _ _ _ L _ _ Hp) as (s & c & _ & _ & _ & H4).
  destruct (arrivals_loop_lookup _ _ _ _ H4) as [_ Hall].
  destruct (Hall j a Hj) as (dep & _ & Ha).
  destruct (arrival_ok _ _ _ _ Ha) as (h0 & m0 & _ & _ & _ & ->).
  set (t := (60 * h0 + m0 + c) mod 1440).
  assert (Ht : 0 <= t < 1440) by (apply Z.mod_pos_bound; lia).
  exists (t / 60), (t mod 60).
  assert (Hh : 0 <= t / 60 <= 23).
  { split; [apply Z.div_pos; lia|].
    assert (t / 60 < 24) by (apply Z.div_lt_upper_bound; lia). lia. }
  assert (Hm : 0 <= t mod 60 <= 59).
  { pose proof (Z.mod_pos_bound t 60). lia. }
  assert (Et : 60 * (t / 60) + t mod 60 = t)
    by (symmetry; apply Z.div_mod; lia).
  split; [exact Hh|]. split; [exact Hm|].
  rewrite <- Et at 1. split; [now rewrite Et|]. split; [reflexivity|].
  rewrite <- Et at 1. now apply parse_dep_render.
Qed.

Lemma arrivals_read_back_as_times_witness :
  exists hh mm,
    0 <= hh <= 23 /\ 0 <= mm <= 59
    /\ "08:09"%string = render_minutes (60 * hh + mm)
    /\ String.length "08:09" = 5%nat
    /\ parse_dep "08:09" = Ok (hh, mm).
Proof.
  apply (arrivals_read_back_as_times
           example_clock example_db example_id 0 None example_projection
           eq_refl 2%nat
           {| stop := Some "C"%string; arrivals := ["07:39"; "08:09"]%string |}
           1%nat "08:09"%string); reflexivity.
Defined.

(** ** How the mutations show in the projection *)

Lemma stops_loop_snoc (base_time : datetime.t) (schedules : list string)
    (s : Stop.t) (stops : list Stop.t) :
  forall i c new,
    stops_loop base_time schedules i c (stops ++ [s]) = Ok new ->
    exists old e,
      stops_loop base_time schedules i c stops = Ok old
      /\ new = old ++ [e]
      /\ stop e = Stop.name s.
Proof.
  induction stops as [|x rest IH]; intros i c new H; simpl in H.
  - destruct (arrivals_loop _ _ _) as [a|err]; simpl in H; [|discriminate].
    injection H as <-. exists [], {| stop := Stop.name s; arrivals := a |}.
    repeat split.
  - simpl. destruct (arrivals_loop _ _ _) as [a|err]; simpl in *;
      [|discriminate].
    destruct (stops_loop _ _ _ _ (rest ++ [s])) as [tl|err] eqn:E;
      simpl in H; [|discriminate].
    injection H as <-.
    destruct (IH _ _ _ E) as (old & e & -> & -> & He). simpl.
    exists ({| stop := Stop.name x; arrivals := a |} :: old), e.
    repeat split. exact He.
Qed.

(** Appending a stop does not change the ETA of any stop the line
    already had: when the projection of the longer line is returned, the
    projection of the line before the append is returned too and is the
    same list without its last entry, which is the new stop's. *)
Theorem appended_stop_keeps_earlier_etas
    (clock : datetime.t) (db : store) (line_id : string)
    (now : option string) (oid : N) (doc : Line.t) (input : StopInput.t)
    (new : EtaResponse) :
  ObjectId line_id = Some oid ->
  db !! oid = Some doc ->
  Line.schedules doc <> [] ->
  compute_eta clock (snd (add_stop db line_id input)) line_id 0 now = Ok new ->
  exists old e,
    compute_eta clock db line_id 0 now = Ok old
    /\ etas new = etas old ++ [e]
    /\ stop e = Some (StopInput.name input).
Proof.
  intros Hid Hdoc Hs. rewrite (add_stop_found _ _ _ _ _ Hid Hdoc).
  unfold compute_eta, find_one. simpl. rewrite Hid, lookup_insert_eq, Hdoc.
  simpl. destruct (Line.schedules doc) as [|d0 ds]; [congruence|].
  destruct (resolve_base_time clock now) as [base|err]; simpl; [|discriminate].
  destruct (stops_loop _ _ _ _ (_ ++ _)) as [l|err] eqn:L; simpl;
    [|discriminate].
  intros [= <-]. destruct (stops_loop_snoc _ _ _ _ _ _ _ L)
    as (old & e & -> & -> & He).
  simpl. exists {| etas := focus 0 old |}, e. rewrite !focus_0.
  repeat split. exact He.
Qed.

Lemma appended_stop_keeps_earlier_etas_witness :
  exists old e,
    compute_eta example_clock example_db example_id 0 None = Ok old
    /\ etas example_projection
         ++ [ {| stop := Some "D"%string;
                 arrivals := ["07:45"; "08:15"]%string |} ]
       = etas old ++ [e]
    /\ stop e = Some "D"%string.
Proof.
  apply (appended_stop_keeps_earlier_etas
           example_clock example_db example_id None 1%N example_line
           (StopInput.mk "D" None None 6)
           {| etas := etas example_projection
                        ++ [ {| stop := Some "D"%string;
                                arrivals := ["07:45"; "08:15"]%string |} ] |});
    [reflexivity | reflexivity | discriminate | reflexivity].
Defined.

Lemma map_drop_arrivals (n : nat) (l : list Eta) :
  map arrivals (drop n l) = drop n (map arrivals l).
Proof.
  revert n. induction l as [|e l IH]; intros [|n]; simpl; auto.
Qed.

Lemma focus_table (from_stop_index : Z) (l l' : list Eta) :
  map arrivals l = map arrivals l' ->
  map arrivals (focus from_stop_index l)
  = map arrivals (focus from_stop_index l').
Proof.
  intros H. unfold focus.
  assert (Hlen : length l = length l').
  { now rewrite <- (length_map arrivals l), H, length_map. }
  rewrite Hlen. destruct (_ && _); [|exact H].
  now rewrite !map_drop_arrivals, H.
Qed.

(** The arrival strings of the walk depend on the stops only through
    the travel minutes of the stops past index 0. *)
Lemma stops_loop_table_ext (base_time : datetime.t) (schedules : list string)
    (stops : list Stop.t) :
  forall stops' i c,
    length stops = length stops' ->
    (forall k s s',
        stops !! k = Some s -> stops' !! k = Some s' ->
        (i + k)%nat <> 0%nat -> travel_minutes s = travel_minutes s') ->
    match stops_loop base_time schedules i c stops,
          stops_loop base_time schedules i c stops' with
    | Ok l, Ok l' => map arrivals l = map arrivals l'
    | Raise e, Raise e' => e = e'
    | _, _ => False
    end.
Proof.
  induction stops as [|s rest IH]; intros [|s' rest'] i c Hlen Hk;
    simpl in Hlen; try discriminate; simpl; [reflexivity|].
  assert (Hc : step_cumulative i c s = step_cumulative i c s').
  { unfold step_cumulative. destruct i as [|i]; simpl; [reflexivity|].
    f_equal. apply (Hk 0%nat); [reflexivity | reflexivity | lia]. }
  rewrite <- Hc. destruct (arrivals_loop _ _ _) as [a|e]; simpl;
    [|reflexivity].
  specialize (IH rest' (S i) (step_cumulative i c s)).
  destruct (stops_loop _ _ _ _ rest) as [l|e],
           (stops_loop _ _ _ _ rest') as [l'|e']; simpl.
  - f_equal. apply IH; [lia|]. intros k x x' H1 H2 _.
    apply (Hk (S k)); [exact H1 | exact H2 | lia].
  - apply IH; [lia|]. intros k x x' H1 H2 _.
    apply (Hk (S k)); [exact H1 | exact H2 | lia].
  - apply IH; [lia|]. intros k x x' H1 H2 _.
    apply (Hk (S k)); [exact H1 | exact H2 | lia].
  - apply IH; [lia|]. intros k x x' H1 H2 _.
    apply (Hk (S k)); [exact H1 | exact H2 | lia].
Qed.

Lemma apply_patch_minutes (patch : StopPatch.t) (s : Stop.t) :
  StopPatch.travel_minutes_from_prev patch = None ->
  travel_minutes (apply_patch patch s) = travel_minutes s.
Proof.
  intros H. unfold travel_minutes, apply_patch. simpl. now rewrite H.
Qed.

(** A patch that gives no travel time, and any patch at index 0, changes
    no arrival string: the projection after [edit_stop] shows the same
    times, and fails the same way, as before it. *)
Theorem patch_without_effect_on_arrivals
    (clock : datetime.t) (db : store) (line_id : string)
    (from_stop_index : Z) (now : option string) (patch : StopPatch.t) :
  StopPatch.travel_minutes_from_prev patch = None
  \/ StopPatch.index patch = 0 ->
  arrival_table
    (compute_eta clock (snd (edit_stop db line_id patch)) line_id
                 from_stop_index now)
  = arrival_table (compute_eta clock db line_id from_stop_index now).
Proof.
  intros Hp. unfold edit_stop, find_one.
  destruct (ObjectId line_id) as [oid|] eqn:Hid;
    [|unfold no_key; destruct (bson_ObjectId line_id); reflexivity].
  destruct (db !! oid) as [doc|] eqn:Hdoc; [|reflexivity].
  destruct (_ || _); [reflexivity|].
  destruct (Line.stops doc !! _) as [s|] eqn:Hs; [|reflexivity].
  rewrite (update_one_found _ _ _ _ Hdoc). simpl.
  unfold compute_eta, find_one. rewrite Hid, lookup_insert_eq, Hdoc. simpl.
  destruct (Line.schedules doc) as [|d0 ds]; [reflexivity|].
  destruct (resolve_base_time clock now) as [base|err]; simpl; [|reflexivity].
  assert (Hext : forall k x x',
             <[Z.to_nat (StopPatch.index patch) := apply_patch patch s]>
               (Line.stops doc) !! k = Some x ->
             Line.stops doc !! k = Some x' ->
             (0 + k)%nat <> 0%nat ->
             travel_minutes x = travel_minutes x').
  { intros k x x' H1 H2 Hk0.
    destruct (decide (k = Z.to_nat (StopPatch.index patch))) as [->|Hne].
    - rewrite list_lookup_insert_eq in H1 by (eapply lookup_lt_Some, Hs).
      injection H1 as <-. rewrite Hs in H2. injection H2 as <-.
      destruct Hp as [Hp|Hp]; [now apply apply_patch_minutes|].
      rewrite Hp in Hk0. simpl in Hk0. lia.
    - rewrite list_lookup_insert_ne in H1 by congruence. congruence. }
  pose proof (stops_loop_table_ext base (d0 :: ds) _ (Line.stops doc)
                0%nat 0 (length_insert _ _ _) Hext) as H.
  destruct (stops_loop _ _ _ _ (<[_ := _]> _)) as [l|e],
           (stops_loop _ _ _ _ (Line.stops doc)) as [l'|e']; simpl;
    try contradiction.
  - f_equal. now apply focus_table.
  - now f_equal.
Qed.

Lemma patch_without_effect_on_arrivals_witness :
  arrival_table
    (compute_eta example_clock
       (snd (edit_stop example_db example_id
                       (StopPatch.mk 0 (Some "Deposito"%string) None None
                                     (Some 45))))
       example_id 0 None)
  = arrival_table (compute_eta example_clock example_db example_id 0 None).
Proof.
  apply (patch_without_effect_on_arrivals
           example_clock example_db example_id 0 None
           (StopPatch.mk 0 (Some "Deposito"%string) None None (Some 45))).
  right. reflexivity.
Defined.

(** ** Cumulative offsets along the route *)

Lemma cumulative_trace_lookup (stops : list Stop.t) (k : nat) :
  (k < length stops)%nat ->
  cumulative_trace 0 0 stops !! k
  = Some (sum_minutes (take k (drop 1 stops))).
Proof.
  intros Hk. destruct stops as [|s0 rest]; simpl in Hk; [lia|].
  destruct k as [|k]; [reflexivity|].
  simpl cumulative_trace. rewrite lookup_cons_ne_0 by lia. simpl pred.
  unfold step_cumulative at 1. simpl Nat.eqb. cbv iota.
  rewrite cumulative_trace_succ by lia. reflexivity.
Qed.

Lemma cumulative_trace_succ_bounds (stops : list Stop.t) :
  Forall (fun s => 0 <= travel_minutes s) stops ->
  forall n c k1 k2 c1 c2,
    (k1 <= k2)%nat ->
    cumulative_trace (S n) c stops !! k1 = Some c1 ->
    cumulative_trace (S n) c stops !! k2 = Some c2 ->
    c <= c1 /\ c1 <= c2.
Proof.
  induction 1 as [|s rest Hs _ IH]; intros n c k1 k2 c1 c2 Hle H1 H2.
  - simpl in H1. rewrite lookup_nil in H1. discriminate.
  - simpl in H1, H2. unfold step_cumulative in H1, H2. simpl in H1, H2.
    destruct k2 as [|k2].
    + assert (k1 = 0%nat) as -> by lia. simpl in H1, H2.
      injection H1 as <-. injection H2 as <-. lia.
    + simpl in H2. destruct k1 as [|k1]; simpl in H1.
      * injection H1 as <-.
        destruct (IH _ _ k2 k2 c2 c2 (le_n _) H2 H2). lia.
      * destruct (IH _ _ k1 k2 c1 c2 ltac:(lia) H1 H2). lia.
Qed.

(** The running totals of stops without negative travel time past the
    first are in order. *)
Lemma cumulative_offsets_never_decrease
    (stops : list Stop.t) (i j : nat) (ci cj : Z) :
  Forall (fun s => 0 <= travel_minutes s) (drop 1 stops) ->
  (i <= j)%nat ->
  cumulative_trace 0 0 stops !! i = Some ci ->
  cumulative_trace 0 0 stops !! j = Some cj ->
  0 <= ci /\ ci <= cj.
Proof.
  intros Hall Hle Hi Hj. destruct stops as [|s0 rest].
  - simpl in Hi. rewrite lookup_nil in Hi. discriminate.
  - change (drop 1 (s0 :: rest)) with rest in Hall.
    simpl in Hi, Hj. unfold step_cumulative in Hi, Hj. simpl in Hi, Hj.
    destruct j as [|j].
    + assert (i = 0%nat) as -> by lia. simpl in Hi, Hj.
      injection Hi as <-. injection Hj as <-. lia.
    + simpl in Hj. destruct i as [|i]; simpl in Hi.
      * injection Hi as <-.
        destruct (cumulative_trace_succ_bounds rest Hall _ _ j j cj cj
                    (le_n _) Hj Hj). lia.
      * destruct (cumulative_trace_succ_bounds rest Hall _ _ i j ci cj
                    ltac:(lia) Hi Hj). lia.
Qed.

Lemma sum_take_in_order (l : list Stop.t) :
  Forall (fun s => 0 <= travel_minutes s) l ->
  forall i j, (i <= j)%nat ->
    0 <= sum_minutes (take i l) /\ sum_minutes (take i l) <= sum_minutes (take j l).
Proof.
  induction 1 as [|s rest Hs _ IH]; intros i j Hle.
  - rewrite !take_nil. simpl. lia.
  - destruct i as [|i].
    + change (take 0 (s :: rest)) with (@nil Stop.t). simpl sum_minutes at 1 2.
      split; [lia|]. destruct j as [|j]; [simpl; lia|].
      change (take (S j) (s :: rest)) with (s :: take j rest).
      simpl sum_minutes. destruct (IH 0%nat j ltac:(lia)) as [_ H].
      rewrite take_0 in H. simpl in H. lia.
    + destruct j as [|j]; [lia|].
      change (take (S i) (s :: rest)) with (s :: take i rest).
      change (take (S j) (s :: rest)) with (s :: take j rest).
      simpl sum_minutes. destruct (IH i j ltac:(lia)). lia.
Qed.

(** When no stop past the first stores a negative travel time, the
    offsets the stop loop of [compute_eta] works with, the ones that make
    it the projection [entries_at] for every reference time and schedule
    list, are never negative and never decrease along the route. *)
Theorem loop_offsets_never_decrease (stops : list Stop.t) :
  Forall (fun s => 0 <= travel_minutes s) (drop 1 stops) ->
  (forall base_time schedules,
      stops_loop base_time schedules 0 0 stops
      = entries_at base_time schedules (prefix_offset stops) 0 stops)
  /\ (forall i j, (i <= j)%nat ->
        0 <= prefix_offset stops i
        /\ prefix_offset stops i <= prefix_offset stops j).
Proof.
  intros Hall. split; [intros; apply stops_loop_prefix_offset|].
  intros i j Hle. unfold prefix_offset. now apply sum_take_in_order.
Qed.

Lemma loop_offsets_never_decrease_witness :
  (forall base_time schedules,
      stops_loop base_time schedules 0 0 detour_stops
      = entries_at base_time schedules (prefix_offset detour_stops) 0
                   detour_stops)
  /\ (forall i j, (i <= j)%nat ->
        0 <= prefix_offset detour_stops i
        /\ prefix_offset detour_stops i <= prefix_offset detour_stops j).
Proof.
  apply (loop_offsets_never_decrease detour_stops).
  repeat constructor; unfold travel_minutes; simpl; lia.
Defined.

Lemma take_delete_le (l : list Stop.t) :
  forall m j, (j <= m)%nat -> take j (delete m l) = take j l.
Proof.
  induction l as [|a l IH]; intros m j Hle; [now destruct m|].
  destruct m as [|m].
  - assert (j = 0%nat) as -> by lia. reflexivity.
  - destruct j as [|j]; [reflexivity|]. simpl. f_equal. apply IH. lia.
Qed.

Lemma sum_take_delete (l : list Stop.t) :
  forall m j x,
    l !! m = Some x -> (m <= j)%nat -> (S j <= length l)%nat ->
    sum_minutes (take j (delete m l))
    = sum_minutes (take (S j) l) - travel_minutes x.
Proof.
  induction l as [|a l IH]; intros m j x Hx Hle Hlen; [discriminate|].
  destruct m as [|m].
  - injection Hx as <-. simpl. lia.
  - destruct j as [|j]; [lia|]. simpl in Hx, Hlen.
    change (delete (S m) (a :: l)) with (a :: delete m l).
    change (take (S j) (a :: delete m l)) with (a :: take j (delete m l)).
    change (take (S (S j)) (a :: l)) with (a :: take (S j) l).
    simpl sum_minutes. rewrite (IH m j x Hx) by lia. lia.
Qed.

(** After [delete_stop] at a valid index [i], the stops before [i] keep
    their cumulative offsets and every later stop, now one index lower,
    has its offset reduced by the travel time of the deleted stop; when
    the first stop is deleted it is the travel time of the second stop,
    now first, that is dropped. *)
Theorem delete_shifts_offsets
    (db : store) (line_id : string) (del : StopDelete.t)
    (oid : N) (doc : Line.t) :
  ObjectId line_id = Some oid ->
  db !! oid = Some doc ->
  0 <= StopDelete.index del < Z.of_nat (length (Line.stops doc)) ->
  exists doc',
    snd (delete_stop db line_id del) !! oid = Some doc'
    /\ (forall j c,
          (j < Z.to_nat (StopDelete.index del))%nat ->
          cumulative_trace 0 0 (Line.stops doc) !! j = Some c ->
          cumulative_trace 0 0 (Line.stops doc') !! j = Some c)
    /\ (forall j c x,
          (Z.to_nat (StopDelete.index del) <= j)%nat ->
          cumulative_trace 0 0 (Line.stops doc) !! S j = Some c ->
          Line.stops doc !! Nat.max (Z.to_nat (StopDelete.index del)) 1
          = Some x ->
          cumulative_trace 0 0 (Line.stops doc') !! j
          = Some (c - travel_minutes x)).
Proof.
  intros Hid Hdoc Hi. unfold delete_stop, find_one. rewrite Hid, Hdoc.
  destruct ((_ <? 0) || (_ <=? _)) eqn:E.
  { apply orb_true_iff in E as [E|E];
      [apply Z.ltb_lt in E | apply Z.leb_le in E]; lia. }
  rewrite (update_one_found _ _ _ _ Hdoc). simpl.
  set (n := Z.to_nat (StopDelete.index del)).
  set (stops := Line.stops doc).
  assert (Hn : (n < length stops)%nat) by (subst n stops; lia).
  eexists. split; [apply lookup_insert_eq|]. simpl.
  assert (Hlen : length (delete n stops) = (length stops - 1)%nat)
    by (apply length_delete, lookup_lt_is_Some_2, Hn).
  split.
  - intros j c Hj Hc.
    rewrite cumulative_trace_lookup in Hc by lia.
    rewrite cumulative_trace_lookup by lia. rewrite <- Hc. do 2 f_equal.
    destruct stops as [|s0 l1]; [simpl in Hn; lia|].
    destruct n as [|m]; [lia|].
    change (drop 1 (delete (S m) (s0 :: l1))) with (delete m l1).
    change (drop 1 (s0 :: l1)) with l1. apply take_delete_le. lia.
  - intros j c x Hj Hc Hx.
    assert (HSj : (S j < length stops)%nat).
    { apply lookup_lt_Some in Hc. now rewrite cumulative_trace_length in Hc. }
    rewrite cumulative_trace_lookup in Hc by lia. injection Hc as <-.
    rewrite cumulative_trace_lookup by lia. f_equal.
    destruct stops as [|s0 l1]; [simpl in Hn; lia|]. simpl in HSj.
    change (drop 1 (s0 :: l1)) with l1.
    destruct n as [|m].
    + simpl in Hx. destruct l1 as [|x1 r]; [discriminate|].
      injection Hx as <-.
      change (drop 1 (delete 0%nat (s0 :: x1 :: r))) with r.
      change (take (S j) (x1 :: r)) with (x1 :: take j r).
      change (sum_minutes (x1 :: take j r))
        with (travel_minutes x1 + sum_minutes (take j r)).
      lia.
    + change (drop 1 (delete (S m) (s0 :: l1))) with (delete m l1).
      replace (Nat.max (S m) 1) with (S m) in Hx by lia. simpl in Hx.
      apply sum_take_delete; [exact Hx | lia | lia].
Qed.

Lemma delete_shifts_offsets_witness :
  exists doc',
    snd (delete_stop example_db example_id (StopDelete.mk 0)) !! 1%N
    = Some doc'
    /\ cumulative_trace 0 0 (Line.stops doc') !! 1%nat = Some (9 - 5).
Proof.
  destruct (delete_shifts_offsets
              example_db example_id (StopDelete.mk 0) 1%N example_line
              eq_refl eq_refl)
    as (doc' & H1 & _ & H3).
  - simpl. lia.
  - exists doc'. split; [exact H1|].
    apply (H3 1%nat 9 (example_stop "B" 5)); [simpl; lia | | ]; reflexivity.
Defined.

Lemma sum_take_insert (l : list Stop.t) :
  forall m k x x',
    l !! m = Some x ->
    sum_minutes (take k (<[m := x']> l))
    = sum_minutes (take k l)
      + (if (m <? k)%nat then travel_minutes x' - travel_minutes x else 0).
Proof.
  induction l as [|a l IH]; intros m k x x' Hx; [discriminate|].
  destruct k as [|k].
  - simpl. destruct (m <? 0)%nat eqn:E; [|lia].
    apply Nat.ltb_lt in E. lia.
  - destruct m as [|m].
    + injection Hx as <-. simpl. lia.
    + simpl in Hx.
      change (<[S m := x']> (a :: l)) with (a :: <[m := x']> l).
      change (take (S k) (a :: <[m := x']> l))
        with (a :: take k (<[m := x']> l)).
      change (take (S k) (a :: l)) with (a :: take k l).
      simpl sum_minutes. rewrite (IH m k x x' Hx).
      change (S m <? S k)%nat with (m <? k)%nat. lia.
Qed.

(** Patching the travel time of a stop past the first moves the
    cumulative offset of that stop and of every later stop by the
    difference between the new and the stored travel time; the offsets of
    the earlier stops stay. *)
Theorem patched_minutes_shift_offsets
    (db : store) (line_id : string) (patch : StopPatch.t)
    (oid : N) (doc : Line.t) (old : Stop.t) (minutes : Z) :
  ObjectId line_id = Some oid ->
  db !! oid = Some doc ->
  1 <= StopPatch.index patch ->
  Line.stops doc !! Z.to_nat (StopPatch.index patch) = Some old ->
  StopPatch.travel_minutes_from_prev patch = Some minutes ->
  exists doc',
    snd (edit_stop db line_id patch) !! oid = Some doc'
    /\ forall j c,
         cumulative_trace 0 0 (Line.stops doc) !! j = Some c ->
         cumulative_trace 0 0 (Line.stops doc') !! j
         = Some (if (j <? Z.to_nat (StopPatch.index patch))%nat then c
                 else c + (minutes - travel_minutes old)).
Proof.
  intros Hid Hdoc Hi Hold Hm. unfold edit_stop, find_one.
  rewrite Hid, Hdoc.
  pose proof (lookup_lt_Some _ _ _ Hold) as Hlt.
  destruct ((_ <? 0) || (_ <=? _)) eqn:E.
  { apply orb_true_iff in E as [E|E];
      [apply Z.ltb_lt in E | apply Z.leb_le in E]; lia. }
  rewrite Hold, (update_one_found _ _ _ _ Hdoc). simpl.
  eexists. split; [apply lookup_insert_eq|]. simpl.
  set (n := Z.to_nat (StopPatch.index patch)) in *.
  assert (Hn : (1 <= n)%nat) by (subst n; lia).
  intros j c Hc.
  assert (Hj : (j < length (Line.stops doc))%nat).
  { apply lookup_lt_Some in Hc. now rewrite cumulative_trace_length in Hc. }
  rewrite cumulative_trace_lookup in Hc by exact Hj. injection Hc as <-.
  rewrite cumulative_trace_lookup by (rewrite length_insert; exact Hj).
  f_equal. destruct (Line.stops doc) as [|s0 l1]; [simpl in Hj; lia|].
  destruct n as [|m]; [lia|]. simpl in Hold.
  change (drop 1 (<[S m := apply_patch patch old]> (s0 :: l1)))
    with (<[m := apply_patch patch old]> l1).
  change (drop 1 (s0 :: l1)) with l1.
  rewrite (sum_take_insert l1 m j old _ Hold).
  assert (Hap : travel_minutes (apply_patch patch old) = minutes).
  { unfold travel_minutes, apply_patch. simpl. now rewrite Hm. }
  rewrite Hap. destruct j as [|j].
  - simpl. destruct (m <? 0)%nat eqn:E0; [apply Nat.ltb_lt in E0|]; lia.
  - destruct (le_lt_dec (S j) m) as [Hle|Hgt].
    + rewrite (proj2 (Nat.ltb_ge m (S j))) by lia.
      rewrite (proj2 (Nat.ltb_lt (S j) (S m))) by lia. lia.
    + rewrite (proj2 (Nat.ltb_lt m (S j))) by lia.
      rewrite (proj2 (Nat.ltb_ge (S j) (S m))) by lia. lia.
Qed.

Lemma patched_minutes_shift_offsets_witness :
  exists doc',
    snd (edit_stop example_db example_id rename_centro) !! 1%N = Some doc'
    /\ forall j c,
         cumulative_trace 0 0 (Line.stops example_line) !! j = Some c ->
         cumulative_trace 0 0 (Line.stops doc') !! j
         = Some (if (j <? 1)%nat then c else c + (7 - 5)).
Proof.
  apply (patched_minutes_shift_offsets
           example_db example_id rename_centro 1%N example_line
           (example_stop "B" 5) 7); reflexivity.
Defined.

(** ** The [Line] schema *)

Lemma validate_stops_ok (l : list Stop.t) :
  forall l',
    LineSchema.validate_stops l = Ok l' ->
    length l' = length l
    /\ Forall (fun s => exists n m,
                   Stop.name s = Some n
                   /\ Stop.travel_minutes_from_prev s = Some m
                   /\ 0 <= m) l'.
Proof.
  induction l as [|s rest IH]; intros l' H; simpl in H.
  - injection H as <-. split; [reflexivity | constructor].
  - unfold Stop.validate in H at 1.
    destruct (Stop.name s) as [n|]; simpl in H; [|discriminate].
    destruct (Stop.travel_minutes_from_prev s) as [m|] eqn:Em; simpl in H.
    + destruct (0 <=? m) eqn:E; simpl in H; [|discriminate].
      destruct (LineSchema.validate_stops rest) as [tl|e]; simpl in H;
        [|discriminate].
      injection H as <-. destruct (IH tl eq_refl) as [Hlen Hall].
      split; [simpl; lia|]. constructor; [|exact Hall].
      exists n, m. repeat split. apply Z.leb_le, E.
    + destruct (LineSchema.validate_stops rest) as [tl|e]; simpl in H;
        [|discriminate].
      injection H as <-. destruct (IH tl eq_refl) as [Hlen Hall].
      split; [simpl; lia|]. constructor; [|exact Hall].
      exists n, 0. repeat split. lia.
Qed.

(** A line the [Line] schema accepts has a stop for each stop of the
    body, each with a name and a travel time that is not negative, so its
    cumulative offsets never decrease; its schedule entries are taken as
    given, whatever they spell. *)
Theorem accepted_line_is_well_formed
    (b : LineSchema.body) (line : Line.t) :
  LineSchema.validate b = Ok line ->
  LineSchema.name b = Some (Line.name line)
  /\ length (Line.stops line) = length (default [] (LineSchema.stops b))
  /\ Forall (fun s => exists n m,
                 Stop.name s = Some n
                 /\ Stop.travel_minutes_from_prev s = Some m
                 /\ 0 <= m) (Line.stops line)
  /\ Line.schedules line = default [] (LineSchema.schedules b)
  /\ (forall i j ci cj,
        (i <= j)%nat ->
        cumulative_trace 0 0 (Line.stops line) !! i = Some ci ->
        cumulative_trace 0 0 (Line.stops line) !! j = Some cj ->
        0 <= ci /\ ci <= cj).
Proof.
  unfold LineSchema.validate.
  destruct (LineSchema.name b) as [n|]; simpl; [|discriminate].
  destruct (LineSchema.validate_stops _) as [ss|e] eqn:V; simpl;
    [|discriminate].
  intros [= <-]. simpl. destruct (validate_stops_ok _ _ V) as [Hlen Hall].
  split; [reflexivity|]. split; [exact Hlen|]. split; [exact Hall|].
  split; [reflexivity|]. intros i j ci cj Hle Hi Hj.
  apply (cumulative_offsets_never_decrease ss i j ci cj); try assumption.
  apply Forall_drop. eapply Forall_impl; [exact Hall|].
  intros s (n' & m & _ & Hm & Hpos). unfold travel_minutes.
  now rewrite Hm.
Qed.

Lemma stop_validate_cases (s : Stop.t) :
  let bad := Stop.name s = None
             \/ exists m, Stop.travel_minutes_from_prev s = Some m /\ m < 0 in
  (exists s', Stop.validate s = Ok s' /\ ~ bad)
  \/ (Stop.validate s = Raise ValidationError /\ bad).
Proof.
  unfold Stop.validate.
  destruct (Stop.name s) as [n|]; simpl; [|right; split; [reflexivity | now left]].
  destruct (Stop.travel_minutes_from_prev s) as [m|]; simpl.
  - destruct (0 <=? m) eqn:E; simpl.
    + apply Z.leb_le in E. left. eexists. split; [reflexivity|].
      intros [H|(m' & H & Hneg)]; [discriminate|]. injection H as <-. lia.
    + apply Z.leb_gt in E. right. split; [reflexivity|]. right. now exists m.
  - left. eexists. split; [reflexivity|].
    intros [H|(m' & H & _)]; discriminate.
Qed.

Lemma validate_stops_rejects (l : list Stop.t) :
  LineSchema.validate_stops l = Raise ValidationError
  <-> Exists (fun s => Stop.name s = None
                       \/ exists m,
                            Stop.travel_minutes_from_prev s = Some m
                            /\ m < 0) l.
Proof.
  induction l as [|s rest IH]; simpl.
  - rewrite Exists_nil. split; [discriminate | contradiction].
  - rewrite Exists_cons, <- IH.
    destruct (stop_validate_cases s) as [(s' & -> & Hok)|[-> Hbad]]; simpl.
    + destruct (LineSchema.validate_stops rest) as [tl|e]; simpl.
      * split; [discriminate|]. intros [H|H]; [contradiction | discriminate].
      * split; [intros H; right; exact H|].
        intros [H|H]; [contradiction | exact H].
    + split; [intros _; left; exact Hbad | reflexivity].
Qed.

(** The [Line] schema rejects a body exactly when its name is missing or
    one of its stops has no name or a negative travel time. *)
Theorem line_schema_rejects_iff (b : LineSchema.body) :
  LineSchema.validate b = Raise ValidationError
  <-> LineSchema.name b = None
      \/ Exists (fun s => Stop.name s = None
                          \/ exists m,
                               Stop.travel_minutes_from_prev s = Some m
                               /\ m < 0)
                (default [] (LineSchema.stops b)).
Proof.
  unfold LineSchema.validate. rewrite <- validate_stops_rejects.
  destruct (LineSchema.name b) as [n|]; simpl;
    [|split; [now left | reflexivity]].
  destruct (LineSchema.validate_stops _) as [ss|e]; simpl.
  - split; [discriminate|]. intros [H|H]; discriminate.
  - split; [intros [= ->]; now right|].
    intros [H|[= ->]]; [discriminate | reflexivity].
Qed.

Lemma line_schema_rejects_iff_witness :
  LineSchema.validate
    (LineSchema.mk (Some "Linea 10"%string) None None
                   (Some [example_stop "A" 0; negative_stop]) None None)
  = Raise ValidationError.
Proof.
  apply (line_schema_rejects_iff
           (LineSchema.mk (Some "Linea 10"%string) None None
                          (Some [example_stop "A" 0; negative_stop])
                          None None)).
  right. apply Exists_cons. right. apply Exists_cons. left.
  right. exists (-5). split; [reflexivity | lia].
Defined.

Lemma accepted_line_is_well_formed_witness :
  LineSchema.name
    (LineSchema.mk (Some "Linea 10"%string) None None
                   (Some detour_stops) (Some ["late"%string]) (Some None))
  = Some "Linea 10"%string
  /\ length detour_stops = 4%nat
  /\ Line.schedules
       (Line.mk "Linea 10" None (Some "#2563eb"%string)
                [ Stop.mk None (Some "Capolinea"%string) None None (Some 9);
                  Stop.mk None (Some "Centro"%string) None None (Some 5);
                  Stop.mk None (Some "Stazione"%string) None None (Some 0);
                  Stop.mk None (Some "Ospedale"%string) None None (Some 6) ]
                ["late"%string] None)
     = ["late"%string].
Proof.
  destruct (accepted_line_is_well_formed
              (LineSchema.mk (Some "Linea 10"%string) None None
                             (Some detour_stops) (Some ["late"%string])
                             (Some None))
              (Line.mk "Linea 10" None (Some "#2563eb"%string)
                 [ Stop.mk None (Some "Capolinea"%string) None None (Some 9);
                   Stop.mk None (Some "Centro"%string) None None (Some 5);
                   Stop.mk None (Some "Stazione"%string) None None (Some 0);
                   Stop.mk None (Some "Ospedale"%string) None None (Some 6) ]
                 ["late"%string] None)
              eq_refl)
    as (H1 & H2 & _ & H4 & _).
  repeat split; assumption.
Defined.

(** ** Reading back what was written *)

(** On a stored line, what [get_line] returns right after a successful
    mutation is the document with that mutation applied and nothing else
    changed: the stop list with the new stop last after [add_stop], the
    given schedule list after [set_schedules]. *)
Theorem get_line_reads_the_write
    (db : store) (line_id : string) (oid : N) (doc : Line.t)
    (input : StopInput.t) (payload : SchedulePayload.t) :
  ObjectId line_id = Some oid ->
  db !! oid = Some doc ->
  get_line db line_id = Ok (PublicLine.mk (ObjectId_str oid) doc)
  /\ get_line (snd (add_stop db line_id input)) line_id
     = Ok (PublicLine.mk (ObjectId_str oid)
             (Line.set_stops
                (Line.stops doc ++ [StopInput.model_dump input]) doc))
  /\ get_line (snd (set_schedules db line_id payload)) line_id
     = Ok (PublicLine.mk (ObjectId_str oid)
             (Line.set_schedules (SchedulePayload.schedules payload) doc)).
Proof.
  intros Hid Hdoc. rewrite (add_stop_found _ _ _ _ _ Hid Hdoc).
  unfold set_schedules, get_line, find_one.
  rewrite Hid, (update_one_found _ _ _ _ Hdoc). simpl.
  now rewrite Hdoc, !lookup_insert_eq.
Qed.

Lemma get_line_reads_the_write_witness :
  get_line example_db example_id
  = Ok (PublicLine.mk "000000000000000000000001" example_line)
  /\ get_line (snd (add_stop example_db example_id
                             (StopInput.mk "D" None None 3))) example_id
     = Ok (PublicLine.mk "000000000000000000000001"
             (Line.set_stops
                (Line.stops example_line
                   ++ [Stop.mk None (Some "D"%string) None None (Some 3)])
                example_line))
  /\ get_line (snd (set_schedules example_db example_id morning)) example_id
     = Ok (PublicLine.mk "000000000000000000000001"
             (Line.set_schedules ["09:00"; "09:30"]%string example_line)).
Proof.
  apply (get_line_reads_the_write
           example_db example_id 1%N example_line
           (StopInput.mk "D" None None 3) morning); reflexivity.
Defined.

(** ** When the projection is returned *)

Lemma compute_eta_returns_witness :
  exists resp,
    compute_eta example_clock example_db example_id 1 (Some "6:05"%string)
    = Ok resp.
Proof.
  apply (compute_eta_returns
           example_clock example_db example_id 1 (Some "6:05"%string)
           1%N example_line).
  - reflexivity.
  - reflexivity.
  - reflexivity.
  - constructor; [exists 7, 30; split; [reflexivity | lia]|].
    constructor; [exists 8, 0; split; [reflexivity | lia]|].
    constructor.
  - change (cumulative_trace 0 0 (Line.stops example_line)) with [0; 5; 9].
    repeat (constructor;
            [unfold keeps_date; split; apply Z.leb_le; reflexivity|]).
    constructor.
Defined.
